(** * acorn-io/tools: the YouTube URL helper and the Azure OpenAI model provider

    A shallow embedding of [google/youtube/helpers.py] and of
    [azure-openai-model-provider/main.py], with the properties their
    specification states about them.

    Conventions.
    - Python [str] values are represented by their UTF-8 encoding as a Rocq
      [string]; every delimiter the code looks at is ASCII, so searching,
      splitting and stripping act on the encoding as they do on the text.
    - A call that may raise returns [py_exception + A]: [inl e] is the
      exception [e] propagating, [inr a] the value returned.
    - The Python standard library functions the helper calls ([urlparse],
      [parse_qs]) are embedded from CPython 3.11's [urllib/parse.py]. *)

From Stdlib Require Import String Ascii List ZArith Bool Lia.
From Stdlib Require Import PrimFloat SpecFloat FloatOps.
Import ListNotations.

Open Scope list_scope.
Open Scope string_scope.

(* ================================================================== *)
(** * Python values, exceptions and the error monad                   *)
(* ================================================================== *)

Module Py.

(** The exception classes that occur in the two programs.  [OtherError]
    stands for any further subclass of [Exception], named by its class
    name (the upstream client library raises such). *)
Inductive exc_class : Type :=
| ValueError
| KeyError
| IndexError
| AttributeError
| TypeError
| OverflowError
| OtherError (name : string).

(** An instance of (a subclass of) [Exception]: its class, what [str(e)]
    gives, and the two attributes [main.py] looks for, with the types the
    upstream client gives them ([status_code: int], [message: str]).
    [None] means that reading the attribute raises [AttributeError]. *)
Record py_exception : Type := mk_exception {
  exc_type : exc_class;
  exc_str : string;
  exc_status_code : option Z;
  exc_message : option string
}.

(** An exception raised by the interpreter or the standard library: it
    has neither a [status_code] nor a [message] attribute. *)
Definition builtin_exception (c : exc_class) (text : string) : py_exception :=
  mk_exception c text None None.

(** [KeyError(k)] for a key that is a plain identifier: [str] of a
    [KeyError] is the [repr] of the key. *)
Definition key_error (k : string) : py_exception :=
  builtin_exception KeyError ("'" ++ k ++ "'").

Definition value_error (text : string) : py_exception :=
  builtin_exception ValueError text.

(** [os.environ]: the variables that are set, with their values. *)
Definition environ : Type := list (string * string).

(** [os.getenv(name)]: [None] when the variable is not set. *)
Fixpoint os_getenv (env : environ) (name : string) : option string :=
  match env with
  | [] => None
  | (k, v) :: rest => if String.eqb k name then Some v else os_getenv rest name
  end.

(** [os.environ.get(name, default)]. *)
Definition os_environ_get (env : environ) (name default : string) : string :=
  match os_getenv env name with
  | Some v => v
  | None => default
  end.

Definition result (A : Type) : Type := (py_exception + A)%type.

Definition ret {A : Type} (a : A) : result A := inr a.
Definition raise {A : Type} (e : py_exception) : result A := inl e.

Definition bind {A B : Type} (m : result A) (k : A -> result B) : result B :=
  match m with
  | inl e => inl e
  | inr a => k a
  end.

End Py.

Import Py.

Notation "x <- m ;; k" := (bind m (fun x => k))
  (at level 61, m at next level, right associativity).

(* ================================================================== *)
(** * The methods of [str] that the programs use                      *)
(* ================================================================== *)

Module PyStr.

Definition is_empty (s : string) : bool :=
  match s with
  | EmptyString => true
  | String _ _ => false
  end.

(** [c in chars], for a one-character [c]. *)
Fixpoint mem (c : ascii) (chars : string) : bool :=
  match chars with
  | EmptyString => false
  | String d rest => if Ascii.eqb c d then true else mem c rest
  end.

(** [s.lstrip(chars)], with the set of characters given as a test. *)
Fixpoint lstrip_if (p : ascii -> bool) (s : string) : string :=
  match s with
  | EmptyString => EmptyString
  | String c rest => if p c then lstrip_if p rest else s
  end.

(** [s.rstrip(chars)]. *)
Fixpoint rstrip_if (p : ascii -> bool) (s : string) : string :=
  match s with
  | EmptyString => EmptyString
  | String c rest =>
      let r := rstrip_if p rest in
      if is_empty r && p c then EmptyString else String c r
  end.

(** [s.strip(chars)]. *)
Definition strip (chars : string) (s : string) : string :=
  rstrip_if (fun c => mem c chars) (lstrip_if (fun c => mem c chars) s).

(** [s.replace(c, '')] for a one-character [c]. *)
Fixpoint remove (c : ascii) (s : string) : string :=
  match s with
  | EmptyString => EmptyString
  | String d rest => if Ascii.eqb d c then remove c rest else String d (remove c rest)
  end.

(** [s.replace(c, d)] for one-character [c] and [d]. *)
Fixpoint replace (c d : ascii) (s : string) : string :=
  match s with
  | EmptyString => EmptyString
  | String x rest => String (if Ascii.eqb x c then d else x) (replace c d rest)
  end.

(** [s.split(sep)] for a one-character separator: never the empty list. *)
Fixpoint split (sep : ascii) (s : string) : list string :=
  match s with
  | EmptyString => [EmptyString]
  | String c rest =>
      if Ascii.eqb c sep then EmptyString :: split sep rest
      else match split sep rest with
           | x :: xs => String c x :: xs
           | [] => [String c EmptyString]
           end
  end.

(** [s.split(sep, 1)] when [sep in s]: the text before the first [sep] and
    the text after it; [None] when [sep] does not occur (Python then gives
    the one-element list [[s]]). *)
Fixpoint split_once (sep : ascii) (s : string) : option (string * string) :=
  match s with
  | EmptyString => None
  | String c rest =>
      if Ascii.eqb c sep then Some (EmptyString, rest)
      else match split_once sep rest with
           | Some (a, b) => Some (String c a, b)
           | None => None
           end
  end.

(** [(s[:j], s[j:])] for [j = s.rfind(sep)]; [None] when [j = -1]. *)
Fixpoint rsplit_at (sep : ascii) (s : string) : option (string * string) :=
  match s with
  | EmptyString => None
  | String c rest =>
      match rsplit_at sep rest with
      | Some (a, b) => Some (String c a, b)
      | None => if Ascii.eqb c sep then Some (EmptyString, s) else None
      end
  end.

(** [(s[:j], s[j:])] for [j] the first index whose character passes [p],
    or [len(s)] when there is none. *)
Fixpoint break_at (p : ascii -> bool) (s : string) : string * string :=
  match s with
  | EmptyString => (EmptyString, EmptyString)
  | String c rest =>
      if p c then (EmptyString, s)
      else let '(a, b) := break_at p rest in (String c a, b)
  end.

(** [s[:-1]]. *)
Fixpoint drop_last (s : string) : string :=
  match s with
  | EmptyString => EmptyString
  | String c rest => if is_empty rest then EmptyString else String c (drop_last rest)
  end.

Fixpoint forallb (p : ascii -> bool) (s : string) : bool :=
  match s with
  | EmptyString => true
  | String c rest => p c && forallb p rest
  end.

Fixpoint map (f : ascii -> ascii) (s : string) : string :=
  match s with
  | EmptyString => EmptyString
  | String c rest => String (f c) (map f rest)
  end.

Definition code (c : ascii) : nat := nat_of_ascii c.

Definition char_isascii (c : ascii) : bool := Nat.ltb (code c) 128.
Definition is_upper (c : ascii) : bool := Nat.leb 65 (code c) && Nat.leb (code c) 90.
Definition is_lower (c : ascii) : bool := Nat.leb 97 (code c) && Nat.leb (code c) 122.
Definition is_digit (c : ascii) : bool := Nat.leb 48 (code c) && Nat.leb (code c) 57.

(** [c.isascii() and c.isalpha()]. *)
Definition is_ascii_alpha (c : ascii) : bool := is_upper c || is_lower c.

(** [s.isascii()]. *)
Definition isascii (s : string) : bool := forallb char_isascii s.

Definition char_lower (c : ascii) : ascii :=
  if is_upper c then ascii_of_nat (code c + 32) else c.

(** [s.lower()], on text whose letters are ASCII. *)
Definition lower (s : string) : string := map char_lower s.

(** [s.startswith(p)]. *)
Definition startswith (p s : string) : bool := String.prefix p s.

(** [''.join(parts)]. *)
Definition join (parts : list string) : string :=
  fold_right String.append EmptyString parts.

End PyStr.

(* ================================================================== *)
(** * [urllib.parse]: [urlparse] and [parse_qs]                       *)
(* ================================================================== *)

Module Urllib.

Import PyStr.

Record SplitResult : Type := mk_SplitResult {
  sr_scheme : string;
  sr_netloc : string;
  sr_path : string;
  sr_query : string;
  sr_fragment : string
}.

Record ParseResult : Type := mk_ParseResult {
  scheme : string;
  netloc : string;
  path : string;
  params : string;
  query : string;
  fragment : string
}.

Definition uses_params : list string :=
  [EmptyString; "ftp"; "hdl"; "prospero"; "http"; "imap";
   "https"; "shttp"; "rtsp"; "rtspu"; "sip"; "sips";
   "mms"; "sftp"; "tel"].

Definition scheme_chars : string :=
  "abcdefghijklmnopqrstuvwxyzABCDEFGHIJKLMNOPQRSTUVWXYZ0123456789+-.".

(** Membership in [_WHATWG_C0_CONTROL_OR_SPACE], the characters of code
    0 to 32. *)
Definition is_c0_control_or_space (c : ascii) : bool := Nat.leb (code c) 32.

Definition TAB : ascii := ascii_of_nat 9.
Definition LF : ascii := ascii_of_nat 10.
Definition CR : ascii := ascii_of_nat 13.

(** [s[n:]]. *)
Fixpoint drop (n : nat) (s : string) : string :=
  match n, s with
  | O, _ => s
  | S n', String _ rest => drop n' rest
  | S _, EmptyString => EmptyString
  end.

(** [_splitnetloc(url, start)]: the text from [start] up to the first of
    [/], [?], [#], and the text from that delimiter on. *)
Definition splitnetloc (url : string) (start : nat) : string * string :=
  break_at (fun c => mem c "/?#") (drop start url).

(** [_splitparams(url)]. *)
Definition splitparams (url : string) : string * string :=
  match rsplit_at "/" url with
  | Some (before, from_slash) =>
      match split_once ";" from_slash with
      | Some (a, b) => (before ++ a, b)
      | None => (url, EmptyString)
      end
  | None =>
      match split_once ";" url with
      | Some (a, b) => (a, b)
      | None => (drop_last url, url)
      end
  end.

(** The scheme prefix of [urlsplit]: when the text before the first [:]
    is non-empty, starts with an ASCII letter and consists of scheme
    characters, it is the scheme (lower-cased) and the URL continues
    after the colon. *)
Definition split_scheme (url : string) : string * string :=
  match split_once ":" url with
  | Some (String c0 pre, post) =>
      if is_ascii_alpha c0 && forallb (fun c => mem c scheme_chars) (String c0 pre)
      then (lower (String c0 pre), post)
      else (EmptyString, url)
  | _ => (EmptyString, url)
  end.

Section Parse.

(** [unicodedata.normalize('NFKC', s)]; the Unicode tables are not part
    of this development. *)
Variable nfkc_normalize : string -> string.

(** [_check_bracketed_host(hostname)], which rests on the [ipaddress]
    module: [Some e] when it raises [e], [None] when it returns. *)
Variable check_bracketed_host : string -> option py_exception.

(** [b.decode('utf-8', 'replace')], from bytes to text (in its UTF-8
    representation). *)
Variable utf8_decode_replace : string -> string.

(** [_checknetloc(netloc)]: [Some e] when it raises [e]. *)
Definition checknetloc (netloc : string) : option py_exception :=
  if is_empty netloc || isascii netloc then None
  else
    let n := remove "?" (remove "#" (remove ":" (remove "@" netloc))) in
    let netloc2 := nfkc_normalize n in
    if String.eqb n netloc2 then None
    else if existsb (fun c => mem c netloc2) ["/"; "?"; "#"; "@"; ":"]%char
         then Some (value_error ("netloc '" ++ netloc
                      ++ "' contains invalid characters under NFKC normalization"))
         else None.

(** [_check_bracketed_netloc(netloc)]: [Some e] when it raises [e]. *)
Definition check_bracketed_netloc (netloc : string) : option py_exception :=
  let hostname_and_port :=
    match rsplit_at "@" netloc with
    | Some (_, String _ after) => after
    | _ => netloc
    end in
  match split_once "[" hostname_and_port with
  | Some (before_bracket, bracketed) =>
      if negb (is_empty before_bracket) then Some (value_error "Invalid IPv6 URL")
      else
        let '(hostname, port) :=
          match split_once "]" bracketed with
          | Some (h, p) => (h, p)
          | None => (bracketed, EmptyString)
          end in
        if negb (is_empty port) && negb (startswith ":" port)
        then Some (value_error "Invalid IPv6 URL")
        else check_bracketed_host hostname
  | None =>
      let hostname :=
        match split_once ":" hostname_and_port with
        | Some (h, _) => h
        | None => hostname_and_port
        end in
      check_bracketed_host hostname
  end.

(** [urlsplit(url)] with the default [scheme=''] and
    [allow_fragments=True]. *)
Definition urlsplit (url : string) : result SplitResult :=
  let url := lstrip_if is_c0_control_or_space url in
  let url := remove LF (remove CR (remove TAB url)) in
  let '(scheme, url) := split_scheme url in
  located <-
    (if startswith "//" url then
       let '(netloc, rest) := splitnetloc url 2 in
       if (mem "[" netloc && negb (mem "]" netloc))
          || (mem "]" netloc && negb (mem "[" netloc))
       then raise (value_error "Invalid IPv6 URL")
       else if mem "[" netloc && mem "]" netloc
       then match check_bracketed_netloc netloc with
            | Some e => raise e
            | None => ret (netloc, rest)
            end
       else ret (netloc, rest)
     else ret (EmptyString, url)) ;;
  let '(netloc, url) := located in
  let '(url, fragment) :=
    match split_once "#" url with
    | Some (u, f) => (u, f)
    | None => (url, EmptyString)
    end in
  let '(url, query) :=
    match split_once "?" url with
    | Some (u, q) => (u, q)
    | None => (url, EmptyString)
    end in
  match checknetloc netloc with
  | Some e => raise e
  | None => ret (mk_SplitResult scheme netloc url query fragment)
  end.

(** [urlparse(url)]. *)
Definition urlparse (url : string) : result ParseResult :=
  splitresult <- urlsplit url ;;
  let scheme := sr_scheme splitresult in
  let url := sr_path splitresult in
  let '(url, params) :=
    if existsb (String.eqb scheme) uses_params && mem ";" url
    then splitparams url
    else (url, EmptyString) in
  ret (mk_ParseResult scheme (sr_netloc splitresult) url params
         (sr_query splitresult) (sr_fragment splitresult)).

Definition hexdigit (c : ascii) : option nat :=
  if is_digit c then Some (code c - 48)
  else if Nat.leb 65 (code c) && Nat.leb (code c) 70 then Some (code c - 55)
  else if Nat.leb 97 (code c) && Nat.leb (code c) 102 then Some (code c - 87)
  else None.

(** The table [_hextobyte], as a partial function of the two digits. *)
Definition hextobyte (a b : ascii) : option ascii :=
  match hexdigit a, hexdigit b with
  | Some x, Some y => Some (ascii_of_nat (16 * x + y))
  | _, _ => None
  end.

(** One [item] of the loop of [unquote_to_bytes]: the text after a [%]. *)
Definition unquote_item (item : string) : string :=
  match item with
  | String a (String b rest) =>
      match hextobyte a b with
      | Some x => String x rest
      | None => String "%" item
      end
  | _ => String "%" item
  end.

(** [unquote_to_bytes(string)]. *)
Definition unquote_to_bytes (s : string) : string :=
  match split "%" s with
  | [] => s
  | first :: items => join (first :: List.map unquote_item items)
  end.

(** The loop of [unquote] over [_asciire.split(string)]: every maximal
    run of ASCII characters is percent-decoded and then decoded as
    UTF-8, the text between the runs is kept.  [run] is the ASCII run
    read so far. *)
Definition flush_run (run : string) : string :=
  if is_empty run then EmptyString
  else utf8_decode_replace (unquote_to_bytes run).

Fixpoint unquote_runs (s : string) (run : string) : string :=
  match s with
  | EmptyString => flush_run run
  | String c rest =>
      if char_isascii c then unquote_runs rest (run ++ String c EmptyString)
      else flush_run run ++ String c (unquote_runs rest EmptyString)
  end.

(** [unquote(string)] with the default [encoding='utf-8'] and
    [errors='replace']. *)
Definition unquote (s : string) : string :=
  if negb (mem "%" s) then s else unquote_runs s EmptyString.

(** The body of the loop of [parse_qsl] for one [name_value], with the
    defaults [keep_blank_values=False] and [strict_parsing=False]: the
    pairs it appends to [r]. *)
Definition parse_field (name_value : string) : list (string * string) :=
  if is_empty name_value then []
  else match split_once "=" name_value with
       | None => []
       | Some (n, v) =>
           if negb (is_empty v)
           then [(unquote (replace "+" " " n), unquote (replace "+" " " v))]
           else []
       end.

(** [parse_qsl(qs)] with the default separator [&]. *)
Definition parse_qsl (qs : string) : list (string * string) :=
  let query_args := if is_empty qs then [] else split "&" qs in
  flat_map parse_field query_args.

(** A [dict] from names to lists of values, in insertion order. *)
Definition qs_dict : Type := list (string * list string).

Fixpoint dict_get (d : qs_dict) (k : string) : option (list string) :=
  match d with
  | [] => None
  | (k', vs) :: rest => if String.eqb k' k then Some vs else dict_get rest k
  end.

(** One step of the loop of [parse_qs]:
    [parsed_result[name].append(value)] when [name] is a key, else
    [parsed_result[name] = [value]]. *)
Fixpoint dict_add (d : qs_dict) (name value : string) : qs_dict :=
  match d with
  | [] => [(name, [value])]
  | (k, vs) :: rest =>
      if String.eqb k name then (k, (vs ++ [value])%list) :: rest
      else (k, vs) :: dict_add rest name value
  end.

(** [parse_qs(qs)]. *)
Definition parse_qs (qs : string) : qs_dict :=
  fold_left (fun d nv => dict_add d (fst nv) (snd nv)) (parse_qsl qs) [].

End Parse.

End Urllib.

(* ================================================================== *)
(** * [google/youtube/helpers.py]                                     *)
(* ================================================================== *)

Module Youtube.

Import PyStr Urllib.

Section Helpers.

Variable nfkc_normalize : string -> string.
Variable check_bracketed_host : string -> option py_exception.
Variable utf8_decode_replace : string -> string.

Definition get_video_url (env : environ) : result string :=
  match os_getenv env "VIDEO_URL" with
  | None => raise (value_error "Error: video_url must be set")
  | Some video_url =>
      parsed <- urlparse nfkc_normalize check_bracketed_host video_url ;;
      if String.eqb (netloc parsed) "www.youtube.com" then
        match dict_get (parse_qs utf8_decode_replace (query parsed)) "v" with
        | None => raise (key_error "v")
        | Some [] => raise (builtin_exception IndexError "list index out of range")
        | Some (video_id :: _) => ret video_id
        end
      else if String.eqb (netloc parsed) "youtu.be" then
        match split "/" (strip "/" (path parsed)) with
        | [] => raise (builtin_exception IndexError "list index out of range")
        | video_id :: _ => ret video_id
        end
      else raise (value_error ("Invalid YouTube URL: " ++ video_url))
  end.

End Helpers.

End Youtube.

(* ================================================================== *)
(** * The Python values that [json.loads] produces                    *)
(* ================================================================== *)

Module PyVal.

Import PyStr.

(** [None], [bool], [int], [float], [str], [list] and [dict] (with [str]
    keys, in insertion order; the keys of one [dict] are distinct). *)
#[warnings="-register-all"] Inductive pyval : Type :=
| PNone
| PBool (b : bool)
| PInt (n : Z)
| PFloat (f : float)
| PStr (s : string)
| PList (items : list pyval)
| PDict (entries : list (string * pyval)).

(** [type(v).__name__]. *)
Definition type_name (v : pyval) : string :=
  match v with
  | PNone => "NoneType"
  | PBool _ => "bool"
  | PInt _ => "int"
  | PFloat _ => "float"
  | PStr _ => "str"
  | PList _ => "list"
  | PDict _ => "dict"
  end.

(** [bool(v)], the test that [if] and [not] apply. *)
Definition truthy (v : pyval) : bool :=
  match v with
  | PNone => false
  | PBool b => b
  | PInt n => negb (Z.eqb n 0)
  | PFloat f => negb (PrimFloat.eqb f PrimFloat.zero)
  | PStr s => negb (is_empty s)
  | PList items => match items with [] => false | _ :: _ => true end
  | PDict entries => match entries with [] => false | _ :: _ => true end
  end.

Fixpoint dict_lookup (entries : list (string * pyval)) (key : string) : option pyval :=
  match entries with
  | [] => None
  | (k, v) :: rest => if String.eqb k key then Some v else dict_lookup rest key
  end.

(** The entries after [d[key] = v] for a key that [d] has: the entry
    keeps its place. *)
Fixpoint dict_store (entries : list (string * pyval)) (key : string) (v : pyval)
  : list (string * pyval) :=
  match entries with
  | [] => []
  | (k, v0) :: rest =>
      if String.eqb k key then (k, v) :: rest
      else (k, v0) :: dict_store rest key v
  end.

(** The [AttributeError] of looking up a method that the type of [v]
    does not have. *)
Definition attribute_error (v : pyval) (attr : string) : py_exception :=
  builtin_exception AttributeError
    ("'" ++ type_name v ++ "' object has no attribute '" ++ attr ++ "'").

(** [v.get(key, default)]: [Some x] for the value found, [None] when the
    default is returned. *)
Definition py_get (v : pyval) (key : string) : result (option pyval) :=
  match v with
  | PDict entries => ret (dict_lookup entries key)
  | _ => raise (attribute_error v "get")
  end.

(** [v[key]] for a [str] key. *)
Definition py_getitem (v : pyval) (key : string) : result pyval :=
  match v with
  | PDict entries =>
      match dict_lookup entries key with
      | Some x => ret x
      | None => raise (key_error key)
      end
  | PList _ =>
      raise (builtin_exception TypeError "list indices must be integers or slices, not str")
  | PStr _ =>
      raise (builtin_exception TypeError "string indices must be integers, not 'str'")
  | _ =>
      raise (builtin_exception TypeError ("'" ++ type_name v ++ "' object is not subscriptable"))
  end.

(** [v.insert(0, x)]: the list after the call. *)
Definition py_insert0 (v : pyval) (x : pyval) : result (list pyval) :=
  match v with
  | PList items => ret (x :: items)
  | _ => raise (attribute_error v "insert")
  end.

(** [float(n)] for an [int]: the nearest binary64 number, ties to even,
    and [OverflowError] when that is beyond the largest one. *)
Definition int_to_float (n : Z) : result float :=
  match binary_normalize 53 1024 n 0 false with
  | S754_infinity _ =>
      raise (builtin_exception OverflowError "int too large to convert to float")
  | sf => ret (SF2Prim sf)
  end.

Section Float.

(** [float(s)] for a [str] (it raises [ValueError] on text that is not a
    number): reading a numeral is the interpreter's. *)
Variable float_of_str : string -> result float.

(** [float(v)]. *)
Definition py_float (v : pyval) : result float :=
  match v with
  | PFloat f => ret f
  | PInt n => int_to_float n
  | PBool b => ret (if b then PrimFloat.one else PrimFloat.zero)
  | PStr s => float_of_str s
  | _ => raise (builtin_exception TypeError
                  ("float() argument must be a string or a real number, not '"
                     ++ type_name v ++ "'"))
  end.

End Float.

End PyVal.

(* ================================================================== *)
(** * [azure-openai-model-provider/main.py]                           *)
(* ================================================================== *)

Module AzureProvider.

Import PyStr PyVal.

(** The sentinel [NOT_GIVEN] of the client library, for an argument
    that is left out. *)
Inductive not_given (A : Type) : Type :=
| NOT_GIVEN
| Given (a : A).
Arguments NOT_GIVEN {A}.
Arguments Given {A} a.

(** The keyword arguments of [azure_client.chat.completions.create]. *)
Record chat_create_args : Type := mk_chat_create_args {
  arg_model : pyval;
  arg_messages : list pyval;
  arg_tools : not_given pyval;
  arg_tool_choice : not_given string;
  arg_temperature : not_given float;
  arg_stream : pyval
}.

(** What [print] is given after the label. *)
Inductive printed : Type :=
| Bytes (b : string)
| Text (s : string)
| ExceptionDict (e : py_exception).

(** What a request does besides computing its response: lines written by
    [print], and calls of the upstream client. *)
Inductive event : Type :=
| Print (label : string) (what : printed)
| ChatCreate (args : chat_create_args)
| EmbeddingsCreate (model input : pyval).

(** What a handler can raise: [HTTPException], or any other exception,
    which leaves the handler as it is. *)
Inductive raised : Type :=
| HTTPException (status_code : Z) (detail : string)
| Propagated (e : py_exception).

(** A computation with effects: the events in the order they happen, and
    then an exception of type [E] or a value. *)
Definition io (E A : Type) : Type := (list event * (E + A))%type.

Definition io_ret {E A : Type} (a : A) : io E A := ([], inr a).
Definition io_raise {E A : Type} (e : E) : io E A := ([], inl e).
Definition emit {E : Type} (ev : event) : io E unit := ([ev], inr tt).

Definition io_bind {E A B : Type} (m : io E A) (k : A -> io E B) : io E B :=
  match m with
  | (t, inl e) => (t, inl e)
  | (t, inr a) => let '(t', r) := k a in ((t ++ t')%list, r)
  end.

(** A step without events. *)
Definition lift {A : Type} (r : result A) : io py_exception A := ([], r).

(** [try: body / except Exception as e: handler e]. *)
Definition try_except {E A : Type} (body : io py_exception A)
    (handler : py_exception -> io E A) : io E A :=
  match body with
  | (t, inr a) => (t, inr a)
  | (t, inl e) => let '(t', r) := handler e in ((t ++ t')%list, r)
  end.

(** Code outside any [try]: its exceptions leave the handler. *)
Definition propagate {A : Type} (m : io py_exception A) : io raised A :=
  match m with
  | (t, inl e) => (t, inl (Propagated e))
  | (t, inr a) => (t, inr a)
  end.

Definition trace {E A : Type} (m : io E A) : list event := fst m.
Definition outcome {E A : Type} (m : io E A) : E + A := snd m.

Notation "x <~ m ;; k" := (io_bind m (fun x => k))
  (at level 61, m at next level, right associativity).

(** The module-level configuration read from the environment at start:
    [debug] and [uri]. *)
Record config : Type := mk_config {
  debug : bool;
  uri : string
}.

(** The assignments of [debug] and [uri] at the top of the module. *)
Definition load_config (env : environ) : config :=
  mk_config
    (String.eqb (os_environ_get env "GPTSCRIPT_DEBUG" "false") "true")
    ("http://127.0.0.1:" ++ os_environ_get env "PORT" "8000").

Definition NL : string := String (ascii_of_nat 10) EmptyString.

Definition system : string := "
You are task oriented system.
You receive input from a user, process the input from the given instructions, and then output the result.
Your objective is to provide consistent and correct results.
You do not need to explain the steps taken, only provide the result to the given instructions.
You are referred to as a tool.
You don't move to the next step until you have a result.
".

(** The message [{"content": system, "role": "system"}]. *)
Definition system_message : pyval :=
  PDict [("content", PStr system); ("role", PStr "system")].

(** What a handler returns.  A [StreamingResponse] is given a generator,
    which the framework runs after the handler has returned; the response
    records what that run yields: the frames, and the exception that ended
    the iteration if one did. *)
Inductive response : Type :=
| Value (v : pyval)
| JSONResponse (content : pyval)
| StreamingResponse (frames : list string) (failure : option py_exception)
    (media_type : string).

Inductive route : Type :=
| Root
| ListModels
| ChatCompletions
| Embeddings.

Record request : Type := mk_request {
  req_route : route;
  req_body : string
}.

(** [type(e).__name__]. *)
Definition class_name (c : exc_class) : string :=
  match c with
  | ValueError => "ValueError"
  | KeyError => "KeyError"
  | IndexError => "IndexError"
  | AttributeError => "AttributeError"
  | TypeError => "TypeError"
  | OverflowError => "OverflowError"
  | OtherError name => name
  end.

(** The [AttributeError] of reading an attribute that [e] has not. *)
Definition no_attribute (e : py_exception) (attr : string) : py_exception :=
  builtin_exception AttributeError
    ("'" ++ class_name (exc_type e) ++ "' object has no attribute '" ++ attr ++ "'").

(** The interpreter and the libraries around the handlers. *)
Record platform : Type := mk_platform {
  (** The objects the upstream client returns, and the chunks a stream
      of it yields. *)
  pyobj : Type;
  chunk : Type;
  (** [json.loads] on the bytes of a body. *)
  json_loads : string -> result pyval;
  (** [float] on a [str]. *)
  float_of_str : string -> result float;
  (** [azure_client.chat.completions.create] and
      [azure_client.embeddings.create] with its [model] and [input]:
      [inl e] when the call raises [e]. *)
  chat_completions_create : chat_create_args -> result pyobj;
  embeddings_create : pyval -> pyval -> result pyobj;
  (** [jsonable_encoder(res)], which returns for the objects of the
      client. *)
  jsonable_encoder : pyobj -> pyval;
  (** [for chunk in stream]: the chunks in the order the upstream emits
      them, and the exception that ends the iteration if one does. *)
  iterate : pyobj -> list chunk * option py_exception;
  (** [chunk.model_dump_json()]. *)
  model_dump_json : chunk -> string;
  (** [print(label, what)] on the standard output of the process: [None]
      when it writes its line and returns, [Some e] when it raises [e]
      (an output that cannot encode the text, an output that is
      closed). *)
  print_error : string -> printed -> option py_exception
}.

Section Provider.

Variable P : platform.
Variable cfg : config.

(** [log(label, what)]: [print] when [debug] is set.  The arguments are
    evaluated by the caller in either case.  A [print] that raises
    writes no line, and its exception leaves [log]. *)
Definition log (label : string) (what : printed) : io py_exception unit :=
  if debug cfg then
    match print_error P label what with
    | None => emit (Print label what)
    | Some e => io_raise e
    end
  else io_ret tt.

(** [e.status_code] and [e.message]: the attribute, or the
    [AttributeError] of an exception that has none. *)
Definition getattr_status_code (e : py_exception) : result Z :=
  match exc_status_code e with
  | Some status_code => ret status_code
  | None => raise (no_attribute e "status_code")
  end.

Definition getattr_message (e : py_exception) : result string :=
  match exc_message e with
  | Some message => ret message
  | None => raise (no_attribute e "message")
  end.

(** The [except Exception as e] block that both endpoints share: the
    inner [try] holds the call of [log] and the two attribute reads, and
    its bare [except] takes whatever one of them raises. *)
Definition error_handler {A : Type} (e : py_exception) : io raised A :=
  found <~
    try_except
      (_ <~ log "Error occurred: " (ExceptionDict e) ;;
       error_code <~ lift (getattr_status_code e) ;;
       error_message <~ lift (getattr_message e) ;;
       io_ret (error_code, error_message))
      (fun _ => io_ret (500%Z, exc_str e)) ;;
  io_raise (HTTPException (fst found) ("Error occurred: " ++ snd found)).

(** One frame of the stream. *)
Definition frame (c : chunk P) : string :=
  "data: " ++ model_dump_json P c ++ NL ++ NL.

(** The loop of [convert_stream] over the chunks: its events, the frames
    it yields, and the exception of [log] when a [print] raises, which
    ends the loop before the frame of that chunk. *)
Fixpoint convert_chunks (chunks : list (chunk P))
  : list event * (list string * option py_exception) :=
  match chunks with
  | [] => ([], ([], None))
  | c :: rest =>
      match log "CHUNK: " (Text (model_dump_json P c)) with
      | (t, inl e) => (t, ([], Some e))
      | (t, inr _) =>
          let '(t', (frames, stopped)) := convert_chunks rest in
          ((t ++ t')%list, (frame c :: frames, stopped))
      end
  end.

(** [convert_stream(stream)], run to its end: its events, the frames it
    yields, and the exception that ended it if one did (of a [print], or
    of the iteration after its last chunk). *)
Definition convert_stream (stream : pyobj P)
  : list event * (list string * option py_exception) :=
  let '(chunks, failure) := iterate P stream in
  let '(t, (frames, stopped)) := convert_chunks chunks in
  (t, (frames, match stopped with
               | Some e => Some e
               | None => failure
               end)).

Definition get_root : io raised response :=
  io_ret (Value (PStr (uri cfg))).

Definition list_models : io raised response :=
  io_ret (JSONResponse
            (PDict [("data", PList [PDict [("id", PStr "gpt-4");
                                           ("name", PStr "Your model")]])])).

Definition chat_completions (body : string) : io raised response :=
  data <~ propagate (lift (json_loads P body)) ;;
  tools <~ propagate (lift (py_get data "tools")) ;;
  let tool_choice :=
    match tools with
    | Some _ => Given "auto"
    | None => NOT_GIVEN
    end in
  temperature <~ propagate (lift (py_get data "temperature")) ;;
  temperature <~
    match temperature with
    | Some t =>
        f <~ propagate (lift (py_float (float_of_str P) t)) ;;
        io_ret (Given f)
    | None => io_ret NOT_GIVEN
    end ;;
  stream <~ propagate (lift (py_get data "stream")) ;;
  let stream := match stream with Some s => s | None => PBool false end in
  messages <~ propagate (lift (py_getitem data "messages")) ;;
  messages' <~ propagate (lift (py_insert0 messages system_message)) ;;
  (* [messages] is the list inside [data]: the insertion shows there. *)
  let data :=
    match data with
    | PDict entries => PDict (dict_store entries "messages" (PList messages'))
    | _ => data
    end in
  try_except
    (model <~ lift (py_getitem data "model") ;;
     let args :=
       mk_chat_create_args model messages'
         (match tools with Some t => Given t | None => NOT_GIVEN end)
         tool_choice temperature stream in
     _ <~ emit (ChatCreate args) ;;
     res <~ lift (chat_completions_create P args) ;;
     if negb (truthy stream) then
       io_ret (JSONResponse (jsonable_encoder P res))
     else
       let '(t, (frames, failure)) := convert_stream res in
       (t, inr (StreamingResponse frames failure "application/x-ndjson")))
    error_handler.

Definition embeddings (body : string) : io raised response :=
  data <~ propagate (lift (json_loads P body)) ;;
  try_except
    (model <~ lift (py_getitem data "model") ;;
     input <~ lift (py_getitem data "input") ;;
     _ <~ emit (EmbeddingsCreate model input) ;;
     res <~ lift (embeddings_create P model input) ;;
     io_ret (JSONResponse (jsonable_encoder P res)))
    error_handler.

(** The route table of [app]. *)
Definition call_next (req : request) : io raised response :=
  match req_route req with
  | Root => get_root
  | ListModels => list_models
  | ChatCompletions => chat_completions (req_body req)
  | Embeddings => embeddings (req_body req)
  end.

(** The middleware [log_body] around every route. *)
Definition log_body (req : request) : io raised response :=
  let body := req_body req in
  _ <~ propagate (log "REQUEST BODY: " (Bytes body)) ;;
  call_next req.

(** The application: every request passes through the middleware. *)
Definition app (req : request) : io raised response := log_body req.

End Provider.

End AzureProvider.


(* ================================================================== *)
(** * The vocabulary of the specification                             *)
(* ================================================================== *)

Module YoutubeSpec.

Import PyStr Urllib Youtube.

(** The first segment of a path: its text up to the first slash. *)
Definition first_segment (s : string) : string :=
  fst (break_at (fun c => Ascii.eqb c "/") s).


(** The values a query gives to the parameter [name], in their order. *)
Fixpoint values_of (name : string) (pairs : list (string * string)) : list string :=
  match pairs with
  | [] => []
  | (n, v) :: rest =>
      if String.eqb n name then v :: values_of name rest else values_of name rest
  end.

(** The two messages of [get_video_url]. *)
Definition missing_url_error : py_exception :=
  value_error "Error: video_url must be set".

Definition invalid_url_error (video_url : string) : py_exception :=
  value_error ("Invalid YouTube URL: " ++ video_url).

(** The library parameters for URLs in ASCII without a bracketed host:
    normalisation and decoding leave ASCII text as it is, and the test
    of a bracketed host is never reached. *)
Definition ascii_nfkc (s : string) : string := s.
Definition ascii_decode (s : string) : string := s.
Definition no_bracketed_host (_ : string) : option py_exception :=
  Some (value_error "Invalid IPv6 URL").

End YoutubeSpec.

Module AzureSpec.

Import PyStr PyVal AzureProvider.

(** The upstream calls among the events of a request. *)
Definition is_upstream_call (ev : event) : bool :=
  match ev with
  | Print _ _ => false
  | ChatCreate _ => true
  | EmbeddingsCreate _ _ => true
  end.

Definition upstream_calls (t : list event) : list event :=
  filter is_upstream_call t.

(** The lines written by [print] among the events of a request. *)
Definition printed_lines (t : list event) : list event :=
  filter (fun ev => negb (is_upstream_call ev)) t.

(** The stream flag of a request body: the value of [stream], and
    [False] when the key is absent. *)
Definition stream_flag (entries : list (string * pyval)) : pyval :=
  match dict_lookup entries "stream" with
  | Some s => s
  | None => PBool false
  end.

(** The temperature of a request body: absent, or what [float] makes of
    the value of [temperature]. *)
Definition temperature_of (P : platform) (entries : list (string * pyval))
  : result (not_given float) :=
  match dict_lookup entries "temperature" with
  | Some t =>
      match py_float (float_of_str P) t with
      | inl e => inl e
      | inr f => inr (Given f)
      end
  | None => inr NOT_GIVEN
  end.

(** A decoded body has the key [key]. *)
Definition has_key (data : pyval) (key : string) : bool :=
  match data with
  | PDict entries =>
      match dict_lookup entries key with
      | Some _ => true
      | None => false
      end
  | _ => false
  end.

(** The arguments of the upstream chat call for a body with the entries
    [entries], the messages [msgs], the model [model] and the
    temperature [temperature]. *)
Definition chat_args (entries : list (string * pyval)) (msgs : list pyval)
    (model : pyval) (temperature : not_given float) : chat_create_args :=
  mk_chat_create_args model (system_message :: msgs)
    (match dict_lookup entries "tools" with
     | Some t => Given t
     | None => NOT_GIVEN
     end)
    (match dict_lookup entries "tools" with
     | Some _ => Given "auto"
     | None => NOT_GIVEN
     end)
    temperature (stream_flag entries).

(** A chat request that gets as far as the upstream call: the body is a
    JSON object with a list of messages and a model, and its temperature
    is absent or converts. *)
Definition chat_request (P : platform) (body : string)
    (entries : list (string * pyval)) (msgs : list pyval) (model : pyval)
    (temperature : not_given float) : Prop :=
  json_loads P body = inr (PDict entries)
  /\ temperature_of P entries = inr temperature
  /\ dict_lookup entries "messages" = Some (PList msgs)
  /\ dict_lookup entries "model" = Some model.

(** What the chat handler does once the upstream call is made: the
    [except] block when the call raises, the completion as JSON when the
    stream flag is false, and else the frames of the stream. *)
Definition after_chat_create (P : platform) (cfg : config)
    (args : chat_create_args) : io raised response :=
  match chat_completions_create P args with
  | inl e => error_handler P cfg e
  | inr res =>
      if negb (truthy (arg_stream args))
      then io_ret (JSONResponse (jsonable_encoder P res))
      else (fst (convert_stream P cfg res),
            inr (StreamingResponse (fst (snd (convert_stream P cfg res)))
                   (snd (snd (convert_stream P cfg res))) "application/x-ndjson"))
  end.

(** The standard output takes every line it is given. *)
Definition takes_every_line (P : platform) : Prop :=
  forall label what, print_error P label what = None.

(** The line of the [except] block for [e] is written when it is asked
    for: the debug flag is off, or [print] returns. *)
Definition error_line_written (P : platform) (cfg : config) (e : py_exception)
  : Prop :=
  debug cfg = false
  \/ print_error P "Error occurred: " (ExceptionDict e) = None.

(** The lines of [convert_stream] for [chunks] are written when they are
    asked for. *)
Definition chunk_lines_written (P : platform) (cfg : config)
    (chunks : list (chunk P)) : Prop :=
  debug cfg = false
  \/ forall c, In c chunks ->
               print_error P "CHUNK: " (Text (model_dump_json P c)) = None.

(** Two runs that differ in what they print only: the same outcome and
    the same upstream calls. *)
Definition same_but_printing {E A : Type} (m1 m2 : io E A) : Prop :=
  outcome m1 = outcome m2
  /\ upstream_calls (trace m1) = upstream_calls (trace m2).

(** [needle] occurs in [text]. *)
Definition contains (needle text : string) : Prop :=
  exists before after, text = before ++ needle ++ after.

(** The error policy of the specification, for an upstream exception [e]
    and what the endpoint does: the status code and the message of [e]
    when [e] has both attributes, else status 500 and [str(e)]. *)
Definition surfaces_as (e : py_exception) (r : raised + response) : Prop :=
  (forall status_code message,
      exc_status_code e = Some status_code ->
      exc_message e = Some message ->
      r = inl (HTTPException status_code ("Error occurred: " ++ message)))
  /\
  (exc_status_code e = None \/ exc_message e = None ->
   r = inl (HTTPException 500 ("Error occurred: " ++ exc_str e))).

End AzureSpec.

(* ================================================================== *)
(** * A platform for examples                                         *)
(* ================================================================== *)

(** An instance of the libraries, small enough to evaluate the handlers
    on: a decoder that knows the bodies below and rejects every other, a
    [float] that reads no numeral from text, an upstream that answers by
    the model name, and a standard output that takes every line. *)
Module Example.

Import PyStr PyVal AzureProvider.

Definition DQ : string := String (ascii_of_nat 34) EmptyString.

(** [s] between double quotes. *)
Definition q (s : string) : string := DQ ++ s ++ DQ.

Definition user_message : pyval :=
  PDict [("role", PStr "user"); ("content", PStr "hi")].

Definition user_message_json : string :=
  "{" ++ q "role" ++ ": " ++ q "user" ++ ", " ++ q "content" ++ ": " ++ q "hi" ++ "}".

(** A chat request for the model [model], with [extra] after the
    messages. *)
Definition chat_body (model extra : string) : string :=
  "{" ++ q "model" ++ ": " ++ q model ++ ", "
      ++ q "messages" ++ ": [" ++ user_message_json ++ "]" ++ extra ++ "}".

Definition chat_data (model : string) (extra : list (string * pyval)) : pyval :=
  PDict ([("model", PStr model); ("messages", PList [user_message])] ++ extra)%list.

Definition stream_true : string := ", " ++ q "stream" ++ ": true".
Definition tools_empty : string := ", " ++ q "tools" ++ ": []".

Definition no_messages_body : string := "{" ++ q "model" ++ ": " ++ q "gpt-4" ++ "}".

Definition embeddings_body (model : string) : string :=
  "{" ++ q "model" ++ ": " ++ q model ++ ", " ++ q "input" ++ ": " ++ q "hi" ++ "}".

Definition json_decode_error : py_exception :=
  builtin_exception (OtherError "JSONDecodeError")
    "Expecting value: line 1 column 1 (char 0)".

Definition bodies : list (string * pyval) :=
  [ (chat_body "gpt-4" EmptyString, chat_data "gpt-4" []);
    (chat_body "gpt-4" stream_true, chat_data "gpt-4" [("stream", PBool true)]);
    (chat_body "gpt-4" tools_empty, chat_data "gpt-4" [("tools", PList [])]);
    (chat_body "limited" EmptyString, chat_data "limited" []);
    (no_messages_body, PDict [("model", PStr "gpt-4")]);
    (embeddings_body "embed", PDict [("model", PStr "embed"); ("input", PStr "hi")]);
    (embeddings_body "limited", PDict [("model", PStr "limited"); ("input", PStr "hi")]) ].

Definition example_loads (body : string) : result pyval :=
  match dict_lookup bodies body with
  | Some data => inr data
  | None => inl json_decode_error
  end.

(** What the example upstream returns: a completion, or a stream given
    by the JSON text of its chunks. *)
Inductive example_object : Type :=
| Completion (v : pyval)
| ChunkStream (chunks : list string).

Definition rate_limited : py_exception :=
  mk_exception (OtherError "RateLimitError") "rate limited" (Some 429%Z)
    (Some "rate limited").

Definition completion : pyval :=
  PDict [("id", PStr "cmpl-1"); ("object", PStr "chat.completion")].

Definition example_chat_create (args : chat_create_args) : result example_object :=
  match arg_model args with
  | PStr "limited" => inl rate_limited
  | _ =>
      if truthy (arg_stream args)
      then inr (ChunkStream ["{}"; "[]"])
      else inr (Completion completion)
  end.

Definition example_embeddings_create (model input : pyval) : result example_object :=
  match model with
  | PStr "limited" => inl rate_limited
  | _ => inr (Completion (PDict [("object", PStr "list")]))
  end.

Definition example_encoder (o : example_object) : pyval :=
  match o with
  | Completion v => v
  | ChunkStream _ => PDict []
  end.

Definition example_iterate (o : example_object) : list string * option py_exception :=
  match o with
  | ChunkStream chunks => (chunks, None)
  | Completion _ =>
      ([], Some (builtin_exception AttributeError
                   "'tuple' object has no attribute 'model_dump_json'"))
  end.

Definition example_platform : platform :=
  mk_platform example_object string example_loads
    (fun s => inl (value_error ("could not convert string to float: '" ++ s ++ "'")))
    example_chat_create example_embeddings_create
    example_encoder example_iterate (fun c => c)
    (fun _ _ => None).

(** The arguments the example requests reach the upstream with. *)
Definition example_args (model : string) (tools : not_given pyval)
    (tool_choice : not_given string) (stream : bool) : chat_create_args :=
  mk_chat_create_args (PStr model) [system_message; user_message]
    tools tool_choice NOT_GIVEN (PBool stream).

(** The configuration without [GPTSCRIPT_DEBUG], and with it. *)
Definition quiet : config := load_config [].
Definition verbose : config := load_config [("GPTSCRIPT_DEBUG", "true")].

End Example.

(* ================================================================== *)
(** * Families of URLs                                                *)
(* ================================================================== *)

Module UrlForms.

Import PyStr Urllib.

(** No character of [s] is one of [chars]. *)
Definition excludes (chars : string) (s : string) : bool :=
  forallb (fun c => negb (mem c chars)) s.

(** The characters that [urlsplit] removes wherever they stand. *)
Definition line_breaks : string :=
  String TAB (String CR (String LF EmptyString)).

(** [?] and the query after it, [#] and the fragment after it; nothing
    for a part that is absent. *)
Definition with_mark (mark : ascii) (part : option string) : string :=
  match part with
  | Some s => String mark s
  | None => EmptyString
  end.

Definition part_text (part : option string) : string :=
  match part with
  | Some s => s
  | None => EmptyString
  end.

(** The URL written from its parts:
    [scheme://netloc path ?query #fragment]. *)
Definition compose_url (sch net pth : string) (qry frg : option string) : string :=
  sch ++ "://" ++ net ++ pth ++ with_mark "?" qry ++ with_mark "#" frg.

(** A scheme: a letter followed by scheme characters. *)
Definition scheme_text (sch : string) : bool :=
  match sch with
  | EmptyString => false
  | String c0 _ => is_ascii_alpha c0 && forallb (fun c => mem c scheme_chars) sch
  end.

(** A network location in ASCII, without brackets and without the
    characters that end it. *)
Definition netloc_text (net : string) : bool :=
  isascii net && excludes ("/?#[]" ++ line_breaks) net.

(** A path: empty or starting with a slash, and without the characters
    that end it. *)
Definition path_text (pth : string) : bool :=
  (is_empty pth || startswith "/" pth) && excludes ("?#" ++ line_breaks) pth.

Definition query_text (qry : option string) : bool :=
  excludes ("#" ++ line_breaks) (part_text qry).

Definition fragment_text (frg : option string) : bool :=
  excludes line_breaks (part_text frg).

(** An identifier that a query carries as it is: not empty, and free of
    the characters that end or encode a query value. *)
Definition watch_id (id : string) : bool :=
  negb (is_empty id) && excludes ("#&%+" ++ line_breaks) id.

(** More fields after the first field of a query: nothing, or [&] and
    the fields. *)
Definition more_fields (x : string) : bool :=
  (is_empty x || startswith "&" x) && excludes ("#" ++ line_breaks) x.

(** An identifier that a path carries as its one segment: free of the
    characters that end a segment or the path. *)
Definition short_id (id : string) : bool :=
  excludes ("/?#;" ++ line_breaks) id.

(** The value a call returns, when it returns. *)
Definition returned {A : Type} (r : result A) : option A :=
  match r with
  | inl _ => None
  | inr a => Some a
  end.

End UrlForms.

(* ================================================================== *)
(** * More request bodies for examples                                *)
(* ================================================================== *)

(** The example platform with a decoder that knows some malformed
    bodies as well. *)
Module MoreExamples.

Import PyStr PyVal AzureProvider Example.

Definition temperature_null : string := ", " ++ q "temperature" ++ ": null".
Definition temperature_one : string := ", " ++ q "temperature" ++ ": 1".

(** A body with messages and nothing else. *)
Definition messages_only_body : string :=
  "{" ++ q "messages" ++ ": [" ++ user_message_json ++ "]}".

(** A body whose messages are a text. *)
Definition text_messages_body : string :=
  "{" ++ q "messages" ++ ": " ++ q "hi" ++ "}".

(** A body that is a list. *)
Definition list_body : string := "[]".

Definition more_bodies : list (string * pyval) :=
  [ (chat_body "gpt-4" temperature_null, chat_data "gpt-4" [("temperature", PNone)]);
    (chat_body "gpt-4" temperature_one, chat_data "gpt-4" [("temperature", PInt 1)]);
    (messages_only_body, PDict [("messages", PList [user_message])]);
    (text_messages_body, PDict [("messages", PStr "hi")]);
    (list_body, PList []) ].

Definition more_loads (body : string) : result pyval :=
  match dict_lookup more_bodies body with
  | Some data => inr data
  | None => example_loads body
  end.

Definition more_platform : platform :=
  mk_platform example_object string more_loads
    (float_of_str example_platform)
    example_chat_create example_embeddings_create
    example_encoder example_iterate (fun c => c)
    (fun _ _ => None).

(** An upstream that answers in Spanish, and a standard output in ASCII:
    the text [l\xc3\xadmite] of its error and the JSON text of one of
    its chunks are in UTF-8, and [print] refuses the two lines that
    carry them with the [UnicodeEncodeError] of the [ascii] codec. *)
Definition accent : string :=
  "l" ++ String (ascii_of_nat 195) (String (ascii_of_nat 173) "mite").

Definition accent_chunk : string :=
  q (String (ascii_of_nat 195) (String (ascii_of_nat 169) EmptyString)).

Definition accent_limited : py_exception :=
  mk_exception (OtherError "RateLimitError") accent (Some 429%Z) (Some accent).

Definition encode_error (escape position : string) : py_exception :=
  builtin_exception (OtherError "UnicodeEncodeError")
    ("'ascii' codec can't encode character '\x" ++ escape ++ "' in position "
       ++ position ++ ": ordinal not in range(128)").

Definition ascii_chat_create (args : chat_create_args) : result example_object :=
  match arg_model args with
  | PStr "accent" =>
      if truthy (arg_stream args)
      then inr (ChunkStream ["{}"; accent_chunk; "[]"])
      else inl accent_limited
  | _ => example_chat_create args
  end.

Definition ascii_embeddings_create (model input : pyval) : result example_object :=
  match model with
  | PStr "accent" => inl accent_limited
  | _ => example_embeddings_create model input
  end.

Definition ascii_bodies : list (string * pyval) :=
  [ (chat_body "accent" EmptyString, chat_data "accent" []);
    (chat_body "accent" stream_true, chat_data "accent" [("stream", PBool true)]);
    (embeddings_body "accent", PDict [("model", PStr "accent"); ("input", PStr "hi")]) ].

Definition ascii_loads (body : string) : result pyval :=
  match dict_lookup ascii_bodies body with
  | Some data => inr data
  | None => more_loads body
  end.

Definition ascii_print_error (label : string) (what : printed) : option py_exception :=
  match what with
  | Bytes _ => None
  | Text s => if String.eqb s accent_chunk then Some (encode_error "e9" "1") else None
  | ExceptionDict e =>
      match exc_message e with
      | Some m => if String.eqb m accent then Some (encode_error "ed" "34") else None
      | None => None
      end
  end.

Definition ascii_platform : platform :=
  mk_platform example_object string ascii_loads
    (float_of_str example_platform)
    ascii_chat_create ascii_embeddings_create
    example_encoder example_iterate (fun c => c)
    ascii_print_error.

(** An upstream whose streams break after their first chunk: the
    iteration raises the rate-limit error. *)
Definition broken_iterate (o : example_object) : list string * option py_exception :=
  match o with
  | ChunkStream chunks => (firstn 1 chunks, Some rate_limited)
  | Completion _ => example_iterate o
  end.

Definition broken_platform : platform :=
  mk_platform example_object string more_loads
    (float_of_str example_platform)
    example_chat_create example_embeddings_create
    example_encoder broken_iterate (fun c => c)
    (fun _ _ => None).

End MoreExamples.

(* ================================================================== *)
(** * Facts about the string methods                                  *)
(* ================================================================== *)

Module PyStrFacts.

Import PyStr.

Lemma split_head (sep : ascii) (s : string) :
  exists rest, split sep s = fst (break_at (fun c => Ascii.eqb c sep) s) :: rest.
Proof.
  induction s as [|c s IH]; simpl.
  - now exists [].
  - destruct (Ascii.eqb c sep).
    + now eexists.
    + destruct IH as [rest ->].
      destruct (break_at _ s) as [a b]; simpl.
      now exists rest.
Qed.

Lemma split_not_nil (sep : ascii) (s : string) : split sep s <> [].
Proof.
  destruct (split_head sep s) as [rest ->]. discriminate.
Qed.





(** The text before the first separator has no separator in it. *)
Lemma break_at_fst_none (p : ascii -> bool) (s : string) :
  forallb (fun c => negb (p c)) (fst (break_at p s)) = true.
Proof.
  induction s as [|c s IH]; simpl; [reflexivity|].
  destruct (p c) eqn:E; simpl; [reflexivity|].
  destruct (break_at p s) as [a b]; simpl in *.
  now rewrite E, IH.
Qed.

(** The text is what comes before the first separator, followed by the
    rest from that separator on. *)
Lemma break_at_append (p : ascii -> bool) (s : string) :
  s = fst (break_at p s) ++ snd (break_at p s).
Proof.
  induction s as [|c s IH]; simpl; [reflexivity|].
  destruct (p c); simpl; [reflexivity|].
  destruct (break_at p s) as [a b]; simpl in *. now f_equal.
Qed.

End PyStrFacts.

(* ================================================================== *)
(** * Facts about [parse_qs]                                          *)
(* ================================================================== *)

Module UrllibFacts.

Import PyStr Urllib YoutubeSpec.

Lemma dict_get_dict_add (d : qs_dict) (name value k : string) :
  dict_get (dict_add d name value) k =
  if String.eqb name k
  then Some (match dict_get d k with
             | Some vs => vs ++ [value]
             | None => [value]
             end)%list
  else dict_get d k.
Proof.
  induction d as [|[k' vs] d IH]; simpl.
  - reflexivity.
  - destruct (String.eqb k' name) eqn:E; simpl.
    + apply String.eqb_eq in E. subst k'.
      destruct (String.eqb name k); reflexivity.
    + destruct (String.eqb k' k) eqn:E'.
      * apply String.eqb_eq in E'. subst k'.
        rewrite String.eqb_sym in E. now rewrite E.
      * exact IH.
Qed.

Lemma dict_get_fold (pairs : list (string * string)) (d : qs_dict) (k : string) :
  dict_get (fold_left (fun d nv => dict_add d (fst nv) (snd nv)) pairs d) k =
  match dict_get d k with
  | Some vs => Some (vs ++ values_of k pairs)%list
  | None => match values_of k pairs with
            | [] => None
            | v :: vs => Some (v :: vs)
            end
  end.
Proof.
  revert d. induction pairs as [|[n v] pairs IH]; intros d; simpl.
  - destruct (dict_get d k); [now rewrite app_nil_r | reflexivity].
  - rewrite IH, dict_get_dict_add.
    destruct (String.eqb n k); [|reflexivity].
    destruct (dict_get d k) as [vs|]; simpl.
    + now rewrite <- app_assoc.
    + reflexivity.
Qed.

(** [parse_qs(qs)[name]] is the list of the values that the fields of
    [qs] give to [name], and [name] is a key exactly when there is one. *)
Lemma parse_qs_get (decode : string -> string) (qs name : string) :
  dict_get (parse_qs decode qs) name =
  match values_of name (parse_qsl decode qs) with
  | [] => None
  | v :: vs => Some (v :: vs)
  end.
Proof.
  unfold parse_qs. now rewrite dict_get_fold.
Qed.

End UrllibFacts.

(* ================================================================== *)
(** * Properties of [get_video_url]                                   *)
(* ================================================================== *)

Module YoutubeProps.

Import PyStr Urllib Youtube YoutubeSpec PyStrFacts UrllibFacts.

Section Props.

Variable nfkc_normalize : string -> string.
Variable check_bracketed_host : string -> option py_exception.
Variable utf8_decode_replace : string -> string.

Local Abbreviation get_video_url :=
  (Youtube.get_video_url nfkc_normalize check_bracketed_host utf8_decode_replace).
Local Abbreviation urlparse := (Urllib.urlparse nfkc_normalize check_bracketed_host).
Local Abbreviation parse_qsl := (Urllib.parse_qsl utf8_decode_replace).


(** C7. When [VIDEO_URL] is not set, [get_video_url] raises the
    [ValueError] that says the URL must be set; when the URL parses to a
    host that is neither [www.youtube.com] nor [youtu.be], it raises a
    different [ValueError], whose text ends with the URL given.  Neither
    case returns an identifier. *)
Theorem get_video_url_errors :
  (forall env,
      os_getenv env "VIDEO_URL" = None ->
      get_video_url env = inl missing_url_error)
  /\
  (forall env video_url parsed,
      os_getenv env "VIDEO_URL" = Some video_url ->
      urlparse video_url = inr parsed ->
      netloc parsed <> "www.youtube.com" ->
      netloc parsed <> "youtu.be" ->
      get_video_url env = inl (invalid_url_error video_url))
  /\
  (forall video_url,
      exc_type missing_url_error = ValueError
      /\ exc_type (invalid_url_error video_url) = ValueError
      /\ exc_str missing_url_error = "Error: video_url must be set"
      /\ exc_str (invalid_url_error video_url) = "Invalid YouTube URL: " ++ video_url
      /\ missing_url_error <> invalid_url_error video_url)
  /\ get_video_url [("VIDEO_URL", "https://example.com/x")]
     = inl (invalid_url_error "https://example.com/x")
  /\ get_video_url [] = inl missing_url_error.
Proof.
  repeat split; try reflexivity.
  - intros env Henv. unfold Youtube.get_video_url. now rewrite Henv.
  - intros env video_url parsed Henv Hparse H1 H2. unfold Youtube.get_video_url.
    rewrite Henv, Hparse; simpl.
    apply String.eqb_neq in H1, H2. now rewrite H1, H2.
  - discriminate.
Qed.


End Props.


(** The unrecognised host at [https://vimeo.com/1]. *)
Lemma get_video_url_errors_witness :
  Youtube.get_video_url ascii_nfkc no_bracketed_host ascii_decode
    [("VIDEO_URL", "https://vimeo.com/1")]
  = inl (invalid_url_error "https://vimeo.com/1").
Proof.
  destruct (get_video_url_errors ascii_nfkc no_bracketed_host ascii_decode)
    as [_ [H _]].
  apply (H [("VIDEO_URL", "https://vimeo.com/1")] "https://vimeo.com/1"
           (mk_ParseResult "https" "vimeo.com" "/1"
              EmptyString EmptyString EmptyString));
    try reflexivity; discriminate.
Defined.


End YoutubeProps.

(* ================================================================== *)
(** * Facts about the handlers                                        *)
(* ================================================================== *)

Module AzureFacts.

Import PyStr PyVal AzureProvider AzureSpec.

Lemma dict_lookup_store_other (entries : list (string * pyval)) (key k : string)
    (v : pyval) :
  String.eqb key k = false ->
  dict_lookup (dict_store entries key v) k = dict_lookup entries k.
Proof.
  intros Hk. induction entries as [|[k0 v0] entries IH]; simpl.
  - reflexivity.
  - destruct (String.eqb k0 key) eqn:E; simpl.
    + apply String.eqb_eq in E. subst k0. now rewrite Hk.
    + destruct (String.eqb k0 k); [reflexivity | exact IH].
Qed.

Lemma upstream_calls_app (t t' : list event) :
  upstream_calls (t ++ t') = (upstream_calls t ++ upstream_calls t')%list.
Proof.
  apply filter_app.
Qed.

(** An upstream call that is among the events is among the upstream
    calls. *)
Lemma in_upstream_calls (ev : event) (t : list event) :
  is_upstream_call ev = true -> In ev t -> In ev (upstream_calls t).
Proof.
  intros Hev Hin. apply filter_In. now split.
Qed.

Section Handlers.

Variable P : platform.
Variable cfg : config.

(** The three ways of [log]: nothing without the debug flag, the line
    when [print] returns, the exception when it raises. *)
Lemma log_run (label : string) (what : printed) :
  log P cfg label what =
  if debug cfg
  then match print_error P label what with
       | None => ([Print label what], inr tt)
       | Some e => ([], inl e)
       end
  else ([], inr tt).
Proof.
  unfold log. destruct (debug cfg); [|reflexivity].
  now destruct (print_error P label what).
Qed.

Lemma log_calls (label : string) (what : printed) :
  upstream_calls (trace (log P cfg label what)) = [].
Proof.
  rewrite log_run. destruct (debug cfg); [|reflexivity].
  now destruct (print_error P label what).
Qed.

(** What the [except] block raises: the attributes of [e] when it has
    both and its line is written, and else 500 with [str(e)]. *)
Lemma error_handler_outcome {A : Type} (e : py_exception) :
  outcome (@error_handler P cfg A e) =
  inl (match (if debug cfg
              then print_error P "Error occurred: " (ExceptionDict e)
              else None),
             exc_status_code e, exc_message e with
       | None, Some status_code, Some message =>
           HTTPException status_code ("Error occurred: " ++ message)
       | _, _, _ => HTTPException 500 ("Error occurred: " ++ exc_str e)
       end).
Proof.
  unfold error_handler. rewrite log_run.
  unfold getattr_status_code, getattr_message.
  destruct (debug cfg);
    [destruct (print_error P "Error occurred: " (ExceptionDict e))|];
    destruct (exc_status_code e), (exc_message e); reflexivity.
Qed.

Lemma error_handler_calls {A : Type} (e : py_exception) :
  upstream_calls (trace (@error_handler P cfg A e)) = [].
Proof.
  unfold error_handler. rewrite log_run.
  unfold getattr_status_code, getattr_message.
  destruct (debug cfg);
    [destruct (print_error P "Error occurred: " (ExceptionDict e))|];
    destruct (exc_status_code e), (exc_message e); reflexivity.
Qed.

(** The policy of the specification holds of the [except] block when
    its line is written. *)
Lemma error_handler_surfaces (e : py_exception) :
  error_line_written P cfg e ->
  surfaces_as e (outcome (@error_handler P cfg response e)).
Proof.
  intros Hw. rewrite error_handler_outcome.
  assert (Hline : (if debug cfg
                   then print_error P "Error occurred: " (ExceptionDict e)
                   else None) = None).
  { destruct Hw as [-> | Hp]; [reflexivity|]. rewrite Hp. now destruct (debug cfg). }
  rewrite Hline. split.
  - intros c m -> ->. reflexivity.
  - intros [-> | H]; [reflexivity|].
    rewrite H. now destruct (exc_status_code e).
Qed.

(** When [print] refuses the line, the bare [except] answers 500 with
    [str(e)], whatever the attributes of [e]. *)
Lemma error_handler_refused {A : Type} (e refusal : py_exception) :
  debug cfg = true ->
  print_error P "Error occurred: " (ExceptionDict e) = Some refusal ->
  outcome (@error_handler P cfg A e)
  = inl (HTTPException 500 ("Error occurred: " ++ exc_str e)).
Proof.
  intros Hd Hp. rewrite error_handler_outcome, Hd, Hp. reflexivity.
Qed.

(** What an [HTTPException] of the [except] block tells about [e]. *)
Lemma error_handler_http {A : Type} (e : py_exception) (c : Z) (d : string) :
  outcome (@error_handler P cfg A e) = inl (HTTPException c d) ->
  (exists m, d = "Error occurred: " ++ m)
  /\ (c <> 500%Z ->
      exists m, exc_status_code e = Some c /\ exc_message e = Some m
                /\ d = "Error occurred: " ++ m).
Proof.
  rewrite error_handler_outcome.
  destruct (if debug cfg then print_error P "Error occurred: " (ExceptionDict e)
            else None);
    destruct (exc_status_code e) as [sc|], (exc_message e) as [m|];
    intros H; injection H as <- <-;
    (split; [now eexists | try congruence]).
  intros _. now exists m.
Qed.

(** The [except] block never returns. *)
Lemma error_handler_raises {A : Type} (e : py_exception) :
  exists c d, outcome (@error_handler P cfg A e) = inl (HTTPException c d).
Proof.
  rewrite error_handler_outcome.
  destruct (if debug cfg then print_error P "Error occurred: " (ExceptionDict e)
            else None);
    destruct (exc_status_code e), (exc_message e); now eexists; eexists.
Qed.

Lemma convert_chunks_calls (chunks : list (chunk P)) :
  upstream_calls (fst (convert_chunks P cfg chunks)) = [].
Proof.
  induction chunks as [|c chunks IH]; simpl; [reflexivity|].
  pose proof (log_calls "CHUNK: " (Text (model_dump_json P c))) as Hlog.
  destruct (log P cfg _ _) as [t [e|u]]; [exact Hlog|].
  destruct (convert_chunks P cfg chunks) as [t' [frames stopped]]; simpl in *.
  unfold trace in Hlog; simpl in Hlog.
  now rewrite upstream_calls_app, Hlog, IH.
Qed.

(** The frames are those of the first chunks, in their order. *)
Lemma convert_chunks_prefix (chunks : list (chunk P)) :
  exists k, fst (snd (convert_chunks P cfg chunks))
            = List.map (frame P) (firstn k chunks).
Proof.
  induction chunks as [|c chunks [k IH]]; simpl; [now exists 0%nat|].
  destruct (log P cfg _ _) as [t [e|u]]; [now exists 0%nat|].
  destruct (convert_chunks P cfg chunks) as [t' [frames stopped]]; simpl in *.
  exists (S k). simpl. now rewrite IH.
Qed.

(** When every line is written, every chunk gets its frame and the loop
    ends by itself. *)
Lemma convert_chunks_written (chunks : list (chunk P)) :
  chunk_lines_written P cfg chunks ->
  snd (convert_chunks P cfg chunks) = (List.map (frame P) chunks, None).
Proof.
  intros Hw. induction chunks as [|c chunks IH]; simpl; [reflexivity|].
  assert (Hrest : chunk_lines_written P cfg chunks).
  { destruct Hw as [Hd | Hp]; [now left | right].
    intros c' Hin. apply Hp. now right. }
  assert (Hlog : exists t, log P cfg "CHUNK: " (Text (model_dump_json P c)) = (t, inr tt)).
  { rewrite log_run. destruct Hw as [-> | Hp]; [now eexists|].
    rewrite (Hp c (or_introl eq_refl)). destruct (debug cfg); now eexists. }
  destruct Hlog as [t ->]. specialize (IH Hrest).
  destruct (convert_chunks P cfg chunks) as [t' [frames stopped]]; simpl in *.
  now injection IH as -> ->.
Qed.

Lemma convert_stream_calls (stream : pyobj P) :
  upstream_calls (fst (convert_stream P cfg stream)) = [].
Proof.
  unfold convert_stream.
  pose proof (convert_chunks_calls (fst (iterate P stream))) as H.
  destruct (iterate P stream) as [chunks failure]; simpl in *.
  destruct (convert_chunks P cfg chunks) as [t [frames stopped]]; simpl in *.
  exact H.
Qed.

Lemma convert_stream_prefix (stream : pyobj P) :
  exists k, fst (snd (convert_stream P cfg stream))
            = List.map (frame P) (firstn k (fst (iterate P stream))).
Proof.
  unfold convert_stream.
  destruct (convert_chunks_prefix (fst (iterate P stream))) as [k H].
  destruct (iterate P stream) as [chunks failure]; simpl in *.
  destruct (convert_chunks P cfg chunks) as [t [frames stopped]]; simpl in *.
  now exists k.
Qed.

Lemma convert_stream_written (stream : pyobj P) :
  chunk_lines_written P cfg (fst (iterate P stream)) ->
  snd (convert_stream P cfg stream)
  = (List.map (frame P) (fst (iterate P stream)), snd (iterate P stream)).
Proof.
  intros Hw. unfold convert_stream.
  pose proof (convert_chunks_written (fst (iterate P stream)) Hw) as H.
  destruct (iterate P stream) as [chunks failure]; simpl in *.
  destruct (convert_chunks P cfg chunks) as [t [frames stopped]]; simpl in *.
  now injection H as -> ->.
Qed.

(** A stream whose iteration fails does not end by itself, whatever is
    printed. *)
Lemma convert_stream_broken (stream : pyobj P) (e : py_exception) :
  snd (iterate P stream) = Some e ->
  exists failure, snd (snd (convert_stream P cfg stream)) = Some failure.
Proof.
  intros He. unfold convert_stream.
  destruct (iterate P stream) as [chunks failure]; simpl in *. subst failure.
  destruct (convert_chunks P cfg chunks) as [t [frames [stopped|]]]; simpl;
    now eexists.
Qed.

(** A request that gets as far as the upstream call makes it first, with
    the arguments read from the body, and goes on from its result. *)
Lemma chat_completions_request (body : string) (entries : list (string * pyval))
    (msgs : list pyval) (model : pyval) (temperature : not_given float) :
  chat_request P body entries msgs model temperature ->
  chat_completions P cfg body =
  let args := chat_args entries msgs model temperature in
  (ChatCreate args :: trace (after_chat_create P cfg args),
   outcome (after_chat_create P cfg args)).
Proof.
  intros (Hload & Htemp & Hmsgs & Hmodel).
  unfold chat_completions. rewrite Hload; simpl.
  unfold temperature_of in Htemp.
  assert (Hstore : dict_lookup (dict_store entries "messages"
                                  (PList (system_message :: msgs))) "model"
                   = Some model)
    by (rewrite dict_lookup_store_other; [exact Hmodel | reflexivity]).
  unfold after_chat_create, chat_args, stream_flag.
  destruct (dict_lookup entries "temperature") as [t|]; simpl.
  - destruct (py_float (float_of_str P) t) as [e|f]; [discriminate|].
    injection Htemp as <-. simpl. rewrite Hmsgs; simpl. rewrite Hstore; simpl.
    destruct (chat_completions_create P _) as [e|res]; simpl.
    + destruct (error_handler P cfg e) as [t' r]; reflexivity.
    + destruct (truthy _); simpl; [|reflexivity].
      destruct (convert_stream P cfg res) as [t' [frames failure]]; reflexivity.
  - injection Htemp as <-. simpl. rewrite Hmsgs; simpl. rewrite Hstore; simpl.
    destruct (chat_completions_create P _) as [e|res]; simpl.
    + destruct (error_handler P cfg e) as [t' r]; reflexivity.
    + destruct (truthy _); simpl; [|reflexivity].
      destruct (convert_stream P cfg res) as [t' [frames failure]]; reflexivity.
Qed.

Lemma after_chat_create_calls (args : chat_create_args) :
  upstream_calls (trace (after_chat_create P cfg args)) = [].
Proof.
  unfold after_chat_create.
  destruct (chat_completions_create P args) as [e|res].
  - apply error_handler_calls.
  - destruct (negb (truthy (arg_stream args))); [reflexivity|].
    apply convert_stream_calls.
Qed.

(** A body that does not decode stops the chat handler at once. *)
Lemma chat_completions_undecoded (body : string) (e : py_exception) :
  json_loads P body = inl e ->
  chat_completions P cfg body = ([], inl (Propagated e)).
Proof.
  intros H. unfold chat_completions. now rewrite H.
Qed.

(** A decoded body without the key [messages] stops the chat handler
    before the [try], with an exception that is not translated. *)
Lemma chat_completions_no_messages (body : string) (data : pyval) :
  json_loads P body = inr data ->
  has_key data "messages" = false ->
  exists e, chat_completions P cfg body = ([], inl (Propagated e)).
Proof.
  intros Hload Hkey. unfold chat_completions. rewrite Hload; simpl.
  destruct data; simpl; try (eexists; reflexivity).
  simpl in Hkey.
  destruct (dict_lookup entries "messages") eqn:Hmsgs; [discriminate|].
  destruct (dict_lookup entries "temperature") as [t|]; simpl.
  - destruct (py_float (float_of_str P) t) as [e|f]; simpl.
    + eexists; reflexivity.
    + eexists; reflexivity.
  - eexists; reflexivity.
Qed.

(** When the body is an object whose temperature is absent or converts,
    the exception is the [KeyError] of the lookup. *)
Lemma chat_completions_key_error (body : string) (entries : list (string * pyval))
    (temperature : not_given float) :
  json_loads P body = inr (PDict entries) ->
  temperature_of P entries = inr temperature ->
  dict_lookup entries "messages" = None ->
  chat_completions P cfg body = ([], inl (Propagated (key_error "messages"))).
Proof.
  intros Hload Htemp Hmsgs. unfold chat_completions. rewrite Hload; simpl.
  unfold temperature_of in Htemp.
  destruct (dict_lookup entries "temperature") as [t|]; simpl.
  - destruct (py_float (float_of_str P) t) as [e|f]; [discriminate|]. simpl.
    now rewrite Hmsgs.
  - now rewrite Hmsgs.
Qed.

(** Every chat request either gets as far as the upstream call or makes
    no upstream call at all. *)
Lemma chat_completions_cases (body : string) :
  (exists entries msgs model temperature,
      chat_request P body entries msgs model temperature)
  \/ upstream_calls (trace (chat_completions P cfg body)) = [].
Proof.
  destruct (json_loads P body) as [e|data] eqn:Hload.
  { right. now rewrite (chat_completions_undecoded _ _ Hload). }
  destruct (has_key data "messages") eqn:Hkey.
  2:{ right. destruct (chat_completions_no_messages _ _ Hload Hkey) as [e ->].
      reflexivity. }
  destruct data as [| | | | | |entries]; try discriminate. simpl in Hkey.
  destruct (dict_lookup entries "messages") as [messages|] eqn:Hmsgs;
    [clear Hkey | discriminate].
  destruct (temperature_of P entries) as [e|temperature] eqn:Htemp.
  { right. unfold chat_completions. rewrite Hload; simpl.
    unfold temperature_of in Htemp.
    destruct (dict_lookup entries "temperature") as [t|]; [|discriminate].
    simpl. destruct (py_float (float_of_str P) t); [reflexivity | discriminate]. }
  destruct messages as [| | | | |msgs|];
    try (right; unfold chat_completions; rewrite Hload; simpl;
         unfold temperature_of in Htemp;
         destruct (dict_lookup entries "temperature") as [t|]; simpl;
         [destruct (py_float (float_of_str P) t); [discriminate|]; simpl|];
         rewrite Hmsgs; reflexivity).
  destruct (dict_lookup entries "model") as [model|] eqn:Hmodel.
  { left. exists entries, msgs, model, temperature. now repeat split. }
  right. unfold chat_completions. rewrite Hload; simpl.
  assert (Hstore : dict_lookup (dict_store entries "messages"
                                  (PList (system_message :: msgs))) "model" = None)
    by (rewrite dict_lookup_store_other; [exact Hmodel | reflexivity]).
  pose proof (@error_handler_calls response (key_error "model")) as Hcalls.
  unfold temperature_of in Htemp.
  destruct (dict_lookup entries "temperature") as [t|]; simpl;
    [destruct (py_float (float_of_str P) t); [discriminate|]; simpl|];
    rewrite Hmsgs; simpl; rewrite Hstore; simpl;
    destruct (error_handler P cfg (key_error "model")) as [t' r]; exact Hcalls.
Qed.

(** The upstream chat call, when it is among the events, is the one of
    a request that got as far, with the arguments read from the body. *)
Lemma chat_completions_call_inv (body : string) (args : chat_create_args) :
  In (ChatCreate args) (trace (chat_completions P cfg body)) ->
  exists entries msgs model temperature,
    chat_request P body entries msgs model temperature
    /\ args = chat_args entries msgs model temperature.
Proof.
  intros Hin.
  destruct (chat_completions_cases body)
    as [(entries & msgs & model & temperature & Hreq) | Hnone].
  - exists entries, msgs, model, temperature. split; [exact Hreq|].
    rewrite (chat_completions_request _ _ _ _ _ Hreq) in Hin.
    destruct Hin as [Heq | Hin]; [now injection Heq|].
    apply (in_upstream_calls (ChatCreate args) _ eq_refl) in Hin.
    now rewrite after_chat_create_calls in Hin.
  - apply (in_upstream_calls (ChatCreate args) _ eq_refl) in Hin.
    now rewrite Hnone in Hin.
Qed.

(** What the embeddings handler does once the upstream call is made. *)
Lemma embeddings_request (body : string) (data model input : pyval) :
  json_loads P body = inr data ->
  py_getitem data "model" = inr model ->
  py_getitem data "input" = inr input ->
  embeddings P cfg body =
  match embeddings_create P model input with
  | inl e => (EmbeddingsCreate model input :: trace (@error_handler P cfg response e),
              outcome (@error_handler P cfg response e))
  | inr res => ([EmbeddingsCreate model input],
                inr (JSONResponse (jsonable_encoder P res)))
  end.
Proof.
  intros Hload Hmodel Hinput. unfold embeddings.
  rewrite Hload; simpl. rewrite Hmodel; simpl. rewrite Hinput; simpl.
  destruct (embeddings_create P model input) as [e|res]; simpl; [|reflexivity].
  destruct (error_handler P cfg e) as [t r]; reflexivity.
Qed.

(** The upstream embeddings call, when it is among the events, has the
    model and the input of the body. *)
Lemma embeddings_call_inv (body : string) (model input : pyval) :
  In (EmbeddingsCreate model input) (trace (embeddings P cfg body)) ->
  exists data,
    json_loads P body = inr data
    /\ py_getitem data "model" = inr model
    /\ py_getitem data "input" = inr input.
Proof.
  intros Hin.
  assert (Hno : forall e,
             ~ In (EmbeddingsCreate model input) (trace (@error_handler P cfg response e))).
  { intros e H. apply (in_upstream_calls (EmbeddingsCreate model input) _ eq_refl) in H.
    now rewrite error_handler_calls in H. }
  destruct (json_loads P body) as [e|data] eqn:Hload.
  { unfold embeddings in Hin. rewrite Hload in Hin. destruct Hin. }
  destruct (py_getitem data "model") as [e|model'] eqn:Hmodel.
  { exfalso. unfold embeddings in Hin. rewrite Hload in Hin; simpl in Hin.
    rewrite Hmodel in Hin; simpl in Hin. apply (Hno e).
    destruct (error_handler P cfg e); exact Hin. }
  destruct (py_getitem data "input") as [e|input'] eqn:Hinput.
  { exfalso. unfold embeddings in Hin. rewrite Hload in Hin; simpl in Hin.
    rewrite Hmodel in Hin; simpl in Hin. rewrite Hinput in Hin; simpl in Hin.
    apply (Hno e). destruct (error_handler P cfg e); exact Hin. }
  rewrite (embeddings_request _ _ _ _ Hload Hmodel Hinput) in Hin.
  exists data.
  destruct (embeddings_create P model' input') as [e|res]; simpl in Hin.
  - destruct Hin as [Heq | Hin]; [injection Heq as -> ->; now repeat split|].
    now apply Hno in Hin.
  - destruct Hin as [Heq | []]. injection Heq as -> ->. now repeat split.
Qed.


End Handlers.

(* ------------------------------------------------------------------ *)
(** ** Runs that differ in what they print only                        *)
(* ------------------------------------------------------------------ *)

Section Printing.

Variable P : platform.
Variables cfg1 cfg2 : config.
Hypothesis same_uri : uri cfg1 = uri cfg2.
Hypothesis every_line : takes_every_line P.

Lemma same_refl {E A : Type} (m : io E A) : same_but_printing m m.
Proof.
  now split.
Qed.

Lemma same_bind {E A B : Type} (m1 m2 : io E A) (k1 k2 : A -> io E B) :
  same_but_printing m1 m2 ->
  (forall a, same_but_printing (k1 a) (k2 a)) ->
  same_but_printing (io_bind m1 k1) (io_bind m2 k2).
Proof.
  destruct m1 as [t1 r1], m2 as [t2 r2].
  unfold same_but_printing, outcome, trace; simpl.
  intros [<- Hc] Hk. destruct r1 as [e|a]; simpl; [now split|].
  specialize (Hk a). destruct (k1 a) as [t1' r1'], (k2 a) as [t2' r2'].
  simpl in *. destruct Hk as [-> Hc']. split; [reflexivity|].
  now rewrite !upstream_calls_app, Hc, Hc'.
Qed.

Lemma same_try {E A : Type} (b1 b2 : io py_exception A)
    (h1 h2 : py_exception -> io E A) :
  same_but_printing b1 b2 ->
  (forall e, same_but_printing (h1 e) (h2 e)) ->
  same_but_printing (try_except b1 h1) (try_except b2 h2).
Proof.
  destruct b1 as [t1 r1], b2 as [t2 r2].
  unfold same_but_printing, outcome, trace; simpl.
  intros [<- Hc] Hh. destruct r1 as [e|a]; simpl; [|now split].
  specialize (Hh e). destruct (h1 e) as [t1' r1'], (h2 e) as [t2' r2'].
  simpl in *. destruct Hh as [-> Hc']. split; [reflexivity|].
  now rewrite !upstream_calls_app, Hc, Hc'.
Qed.

Lemma same_propagate {A : Type} (m1 m2 : io py_exception A) :
  same_but_printing m1 m2 ->
  same_but_printing (propagate m1) (propagate m2).
Proof.
  destruct m1 as [t1 r1], m2 as [t2 r2].
  unfold same_but_printing, outcome, trace; simpl.
  intros [<- Hc]. now destruct r1.
Qed.

Lemma same_log (label : string) (what : printed) :
  same_but_printing (log P cfg1 label what) (log P cfg2 label what).
Proof.
  rewrite !log_run, (every_line label what).
  destruct (debug cfg1), (debug cfg2); now split.
Qed.

Lemma same_error_handler {A : Type} (e : py_exception) :
  same_but_printing (@error_handler P cfg1 A e) (@error_handler P cfg2 A e).
Proof.
  split.
  - rewrite !error_handler_outcome, (every_line "Error occurred: " (ExceptionDict e)).
    now destruct (debug cfg1), (debug cfg2).
  - now rewrite !error_handler_calls.
Qed.

Lemma same_chat_completions (body : string) :
  same_but_printing (chat_completions P cfg1 body) (chat_completions P cfg2 body).
Proof.
  unfold chat_completions.
  apply same_bind; [apply same_refl | intros data].
  apply same_bind; [apply same_refl | intros tools].
  apply same_bind; [apply same_refl | intros temperature].
  apply same_bind; [apply same_refl | intros temperature'].
  apply same_bind; [apply same_refl | intros stream].
  apply same_bind; [apply same_refl | intros messages].
  apply same_bind; [apply same_refl | intros messages'].
  apply same_try; [|intros e; apply same_error_handler].
  apply same_bind; [apply same_refl | intros model].
  apply same_bind; [apply same_refl | intros _].
  apply same_bind; [apply same_refl | intros res].
  destruct (negb (truthy _)); [apply same_refl|].
  assert (W1 : chunk_lines_written P cfg1 (fst (iterate P res)))
    by (right; intros c _; apply every_line).
  assert (W2 : chunk_lines_written P cfg2 (fst (iterate P res)))
    by (right; intros c _; apply every_line).
  pose proof (convert_stream_written P cfg1 res W1) as F1.
  pose proof (convert_stream_written P cfg2 res W2) as F2.
  pose proof (convert_stream_calls P cfg1 res) as C1.
  pose proof (convert_stream_calls P cfg2 res) as C2.
  destruct (convert_stream P cfg1 res) as [t1 [frames1 failure1]].
  destruct (convert_stream P cfg2 res) as [t2 [frames2 failure2]].
  simpl in *. injection F1 as -> ->. injection F2 as -> ->.
  split; [reflexivity|]. unfold trace; simpl. now rewrite C1, C2.
Qed.

Lemma same_embeddings (body : string) :
  same_but_printing (embeddings P cfg1 body) (embeddings P cfg2 body).
Proof.
  unfold embeddings.
  apply same_bind; [apply same_refl | intros data].
  apply same_try; [apply same_refl | intros e; apply same_error_handler].
Qed.

Lemma same_app (req : request) :
  same_but_printing (app P cfg1 req) (app P cfg2 req).
Proof.
  unfold app, log_body.
  apply same_bind; [apply same_propagate, same_log | intros _].
  unfold call_next. destruct (req_route req).
  - unfold get_root. rewrite same_uri. apply same_refl.
  - apply same_refl.
  - apply same_chat_completions.
  - apply same_embeddings.
Qed.

End Printing.

(* ------------------------------------------------------------------ *)
(** ** Runs without the debug flag print nothing                       *)
(* ------------------------------------------------------------------ *)

Section Quiet.

Variable P : platform.
Variable cfg : config.
Hypothesis debug_off : debug cfg = false.

Lemma printed_lines_app (t t' : list event) :
  printed_lines (t ++ t') = (printed_lines t ++ printed_lines t')%list.
Proof.
  apply filter_app.
Qed.

Lemma silent_bind {E A B : Type} (m : io E A) (k : A -> io E B) :
  printed_lines (trace m) = [] ->
  (forall a, printed_lines (trace (k a)) = []) ->
  printed_lines (trace (io_bind m k)) = [].
Proof.
  destruct m as [t [e|a]]; unfold trace; simpl; intros Hm Hk; [exact Hm|].
  specialize (Hk a). destruct (k a) as [t' r]; simpl in *.
  now rewrite printed_lines_app, Hm, Hk.
Qed.

Lemma silent_try {E A : Type} (b : io py_exception A) (h : py_exception -> io E A) :
  printed_lines (trace b) = [] ->
  (forall e, printed_lines (trace (h e)) = []) ->
  printed_lines (trace (try_except b h)) = [].
Proof.
  destruct b as [t [e|a]]; unfold trace; simpl; intros Hb Hh; [|exact Hb].
  specialize (Hh e). destruct (h e) as [t' r]; simpl in *.
  now rewrite printed_lines_app, Hb, Hh.
Qed.

Lemma silent_propagate {A : Type} (m : io py_exception A) :
  printed_lines (trace m) = [] ->
  printed_lines (trace (propagate m)) = [].
Proof.
  now destruct m as [t [e|a]].
Qed.

Lemma silent_lift {A : Type} (r : result A) :
  printed_lines (trace (lift r)) = [].
Proof.
  reflexivity.
Qed.

(** Without the flag [log] does nothing at all. *)
Lemma quiet_log (label : string) (what : printed) :
  log P cfg label what = ([], inr tt).
Proof.
  now rewrite log_run, debug_off.
Qed.

Lemma silent_log (label : string) (what : printed) :
  printed_lines (trace (log P cfg label what)) = [].
Proof.
  now rewrite quiet_log.
Qed.

Lemma silent_error_handler {A : Type} (e : py_exception) :
  printed_lines (trace (@error_handler P cfg A e)) = [].
Proof.
  unfold error_handler. rewrite quiet_log.
  unfold getattr_status_code, getattr_message.
  now destruct (exc_status_code e), (exc_message e).
Qed.

Lemma silent_convert_chunks (chunks : list (chunk P)) :
  fst (convert_chunks P cfg chunks) = [].
Proof.
  induction chunks as [|c chunks IH]; simpl; [reflexivity|].
  rewrite quiet_log.
  destruct (convert_chunks P cfg chunks) as [t [frames stopped]]; simpl in *.
  exact IH.
Qed.

Lemma silent_convert_stream (stream : pyobj P) :
  fst (convert_stream P cfg stream) = [].
Proof.
  unfold convert_stream.
  pose proof (silent_convert_chunks (fst (iterate P stream))) as H.
  destruct (iterate P stream) as [chunks failure]; simpl in *.
  destruct (convert_chunks P cfg chunks) as [t [frames stopped]]; simpl in *.
  exact H.
Qed.

Lemma silent_chat_completions (body : string) :
  printed_lines (trace (chat_completions P cfg body)) = [].
Proof.
  unfold chat_completions.
  apply silent_bind; [apply silent_propagate, silent_lift | intros data].
  apply silent_bind; [apply silent_propagate, silent_lift | intros tools].
  apply silent_bind; [apply silent_propagate, silent_lift | intros temperature].
  apply silent_bind.
  { destruct temperature as [t|]; [|reflexivity].
    apply silent_bind; [apply silent_propagate, silent_lift | reflexivity]. }
  intros temperature'.
  apply silent_bind; [apply silent_propagate, silent_lift | intros stream].
  apply silent_bind; [apply silent_propagate, silent_lift | intros messages].
  apply silent_bind; [apply silent_propagate, silent_lift | intros messages'].
  apply silent_try; [|intros e; apply silent_error_handler].
  apply silent_bind; [apply silent_lift | intros model].
  apply silent_bind; [reflexivity | intros _].
  apply silent_bind; [apply silent_lift | intros res].
  destruct (negb (truthy _)); [reflexivity|].
  pose proof (silent_convert_stream res) as H.
  destruct (convert_stream P cfg res) as [t [frames failure]].
  simpl in H. now subst t.
Qed.

Lemma silent_embeddings (body : string) :
  printed_lines (trace (embeddings P cfg body)) = [].
Proof.
  unfold embeddings.
  apply silent_bind; [apply silent_propagate, silent_lift | intros data].
  apply silent_try; [|intros e; apply silent_error_handler].
  apply silent_bind; [apply silent_lift | intros model].
  apply silent_bind; [apply silent_lift | intros input].
  apply silent_bind; [reflexivity | intros _].
  apply silent_bind; [apply silent_lift | reflexivity].
Qed.

Lemma silent_app (req : request) :
  printed_lines (trace (app P cfg req)) = [].
Proof.
  unfold app, log_body.
  apply silent_bind; [apply silent_propagate, silent_log | intros _].
  unfold call_next. destruct (req_route req).
  - reflexivity.
  - reflexivity.
  - apply silent_chat_completions.
  - apply silent_embeddings.
Qed.

End Quiet.

End AzureFacts.

(* ================================================================== *)
(** * More facts about the handlers                                   *)
(* ================================================================== *)

Module AzureMore.

Import Py PyStr PyVal AzureProvider AzureSpec AzureFacts.

(** The exceptions of a failed subscript carry no status code. *)
Lemma py_getitem_error (data : pyval) (key : string) (e : py_exception) :
  py_getitem data key = inl e -> exc_status_code e = None.
Proof.
  destruct data; simpl; try (intros H; injection H as <-; reflexivity).
  destruct (dict_lookup entries key); [discriminate|].
  intros H. injection H as <-. reflexivity.
Qed.

Section Handlers.

Variable P : platform.
Variable cfg : config.

Lemma error_handler_no_status {A : Type} (e : py_exception) :
  exc_status_code e = None ->
  outcome (@error_handler P cfg A e)
  = inl (HTTPException 500 ("Error occurred: " ++ exc_str e)).
Proof.
  intros H. rewrite error_handler_outcome, H.
  now destruct (if debug cfg then print_error P "Error occurred: " (ExceptionDict e)
                else None).
Qed.

(** The embeddings handler, when a subscript of the body fails. *)
Lemma embeddings_subscript_fails (body : string) (data : pyval) (e : py_exception) :
  json_loads P body = inr data ->
  py_getitem data "model" = inl e
  \/ (exists model, py_getitem data "model" = inr model
                    /\ py_getitem data "input" = inl e) ->
  embeddings P cfg body
  = (trace (@error_handler P cfg response e), outcome (@error_handler P cfg response e)).
Proof.
  intros Hload H. unfold embeddings. rewrite Hload; simpl.
  destruct H as [Hmodel | (model & Hmodel & Hinput)].
  - rewrite Hmodel; simpl. now destruct (error_handler P cfg e).
  - rewrite Hmodel; simpl. rewrite Hinput; simpl. now destruct (error_handler P cfg e).
Qed.

(** The chat handler, for a well-formed body without a model. *)
Lemma chat_completions_no_model (body : string) (entries : list (string * pyval))
    (msgs : list pyval) (temperature : not_given float) :
  json_loads P body = inr (PDict entries) ->
  temperature_of P entries = inr temperature ->
  dict_lookup entries "messages" = Some (PList msgs) ->
  dict_lookup entries "model" = None ->
  chat_completions P cfg body
  = (trace (@error_handler P cfg response (key_error "model")),
     outcome (@error_handler P cfg response (key_error "model"))).
Proof.
  intros Hload Htemp Hmsgs Hmodel. unfold chat_completions. rewrite Hload; simpl.
  assert (Hstore : dict_lookup (dict_store entries "messages"
                                  (PList (system_message :: msgs))) "model" = None)
    by (rewrite dict_lookup_store_other; [exact Hmodel | reflexivity]).
  unfold temperature_of in Htemp.
  destruct (dict_lookup entries "temperature") as [t|]; simpl;
    [destruct (py_float (float_of_str P) t); [discriminate|]; simpl|];
    rewrite Hmsgs; simpl; rewrite Hstore; simpl;
    now destruct (error_handler P cfg (key_error "model")).
Qed.

(** The chat handler, for a body that is not an object. *)
Lemma chat_completions_not_object (body : string) (data : pyval) :
  json_loads P body = inr data ->
  (forall entries, data <> PDict entries) ->
  chat_completions P cfg body = ([], inl (Propagated (attribute_error data "get"))).
Proof.
  intros Hload Hnot. unfold chat_completions. rewrite Hload; simpl.
  destruct data; try reflexivity. now destruct (Hnot entries).
Qed.

(** The chat handler, for a temperature that [float] refuses. *)
Lemma chat_completions_bad_temperature (body : string)
    (entries : list (string * pyval)) (e : py_exception) :
  json_loads P body = inr (PDict entries) ->
  temperature_of P entries = inl e ->
  chat_completions P cfg body = ([], inl (Propagated e)).
Proof.
  intros Hload Htemp. unfold chat_completions. rewrite Hload; simpl.
  unfold temperature_of in Htemp.
  destruct (dict_lookup entries "temperature") as [t|]; [|discriminate]. simpl.
  destruct (py_float (float_of_str P) t); [|discriminate].
  now injection Htemp as <-.
Qed.

(** The chat handler, for messages that are not a list. *)
Lemma chat_completions_messages_not_list (body : string)
    (entries : list (string * pyval)) (temperature : not_given float)
    (messages : pyval) :
  json_loads P body = inr (PDict entries) ->
  temperature_of P entries = inr temperature ->
  dict_lookup entries "messages" = Some messages ->
  (forall msgs, messages <> PList msgs) ->
  chat_completions P cfg body
  = ([], inl (Propagated (attribute_error messages "insert"))).
Proof.
  intros Hload Htemp Hmsgs Hnot. unfold chat_completions. rewrite Hload; simpl.
  unfold temperature_of in Htemp.
  destruct (dict_lookup entries "temperature") as [t|]; simpl;
    [destruct (py_float (float_of_str P) t); [discriminate|]; simpl|];
    rewrite Hmsgs; simpl;
    (destruct messages; try reflexivity; now destruct (Hnot items)).
Qed.

(** Every way a chat request can go. *)
Lemma chat_completions_all_cases (body : string) :
  (exists e, chat_completions P cfg body = ([], inl (Propagated e)))
  \/ (exists entries,
         json_loads P body = inr (PDict entries)
         /\ dict_lookup entries "model" = None
         /\ chat_completions P cfg body
            = (trace (@error_handler P cfg response (key_error "model")),
               outcome (@error_handler P cfg response (key_error "model"))))
  \/ (exists entries msgs model temperature,
         chat_request P body entries msgs model temperature).
Proof.
  destruct (json_loads P body) as [e|data] eqn:Hload.
  { left. exists e. now apply chat_completions_undecoded. }
  destruct (has_key data "messages") eqn:Hkey.
  2:{ left. now apply (chat_completions_no_messages P cfg body data). }
  destruct data as [| | | | | |entries]; try discriminate. simpl in Hkey.
  destruct (dict_lookup entries "messages") as [messages|] eqn:Hmsgs;
    [clear Hkey | discriminate].
  destruct (temperature_of P entries) as [e|temperature] eqn:Htemp.
  { left. exists e. now apply (chat_completions_bad_temperature body entries). }
  assert (Hlist : (exists msgs, messages = PList msgs)
                  \/ (forall msgs, messages <> PList msgs)).
  { destruct messages; try (right; discriminate). left. now eexists. }
  destruct Hlist as [[msgs ->] | Hnot].
  2:{ left. eexists.
      now apply (chat_completions_messages_not_list body entries temperature messages). }
  destruct (dict_lookup entries "model") as [model|] eqn:Hmodel.
  - right. right. exists entries, msgs, model, temperature. now repeat split.
  - right. left. exists entries. split; [reflexivity|]. split; [exact Hmodel|].
    now apply (chat_completions_no_model body entries msgs temperature).
Qed.

(** Every way an embeddings request can go. *)
Lemma embeddings_all_cases (body : string) :
  (exists e, embeddings P cfg body = ([], inl (Propagated e)))
  \/ (exists e, exc_status_code e = None
                /\ embeddings P cfg body
                   = (trace (@error_handler P cfg response e),
                      outcome (@error_handler P cfg response e)))
  \/ (exists data model input,
         json_loads P body = inr data
         /\ py_getitem data "model" = inr model
         /\ py_getitem data "input" = inr input).
Proof.
  destruct (json_loads P body) as [e|data] eqn:Hload.
  { left. exists e. unfold embeddings. now rewrite Hload. }
  destruct (py_getitem data "model") as [e|model] eqn:Hmodel.
  { right. left. exists e. split; [now apply (py_getitem_error data "model")|].
    apply (embeddings_subscript_fails body data e Hload). now left. }
  destruct (py_getitem data "input") as [e|input] eqn:Hinput.
  { right. left. exists e. split; [now apply (py_getitem_error data "input")|].
    apply (embeddings_subscript_fails body data e Hload). right. now exists model. }
  right. right. now exists data, model, input.
Qed.

End Handlers.

End AzureMore.

(* ================================================================== *)
(** * Properties of the model provider                                *)
(* ================================================================== *)

Module AzureProps.

Import PyStr PyVal AzureProvider AzureSpec AzureFacts AzureMore Example MoreExamples.

Lemma rate_limited_detail (e : py_exception) (r : raised + response) :
  surfaces_as e r ->
  exc_status_code e = Some 429%Z ->
  exc_message e = Some "rate limited" ->
  exists detail, r = inl (HTTPException 429 detail) /\ contains "rate limited" detail.
Proof.
  intros [H _] Hcode Hmsg. exists ("Error occurred: " ++ "rate limited").
  split; [now apply H|]. now exists "Error occurred: ", EmptyString.
Qed.

(** C1.  In the chat completions and the embeddings
    endpoints, an exception that the upstream call raises is caught and
    raised again as an [HTTPException].  When the line of the [except]
    block is written (the debug flag is off, or [print] returns), its
    status code and message are those of the exception when it has both
    attributes, and else it has status 500 and the [str] of the
    exception; the message follows [Error occurred: ] in the detail, and
    an upstream error with status 429 and message [rate limited] reaches
    the caller as HTTP 429 with a detail that contains [rate limited].
    When [print] raises on that line, the bare [except] answers with
    status 500 and the [str] of the exception, whatever its
    attributes.  An exception raised while the stream of a chat request
    is iterated is not caught: the handler has returned, and the stream
    of the response ends with an exception. *)
Theorem upstream_failure_translated (P : platform) (cfg : config) :
  (forall body args e,
      In (ChatCreate args) (trace (chat_completions P cfg body)) ->
      chat_completions_create P args = inl e ->
      (error_line_written P cfg e ->
       surfaces_as e (outcome (chat_completions P cfg body))
       /\ (exc_status_code e = Some 429%Z ->
           exc_message e = Some "rate limited" ->
           exists detail,
             outcome (chat_completions P cfg body) = inl (HTTPException 429 detail)
             /\ contains "rate limited" detail))
      /\ (forall refusal,
             debug cfg = true ->
             print_error P "Error occurred: " (ExceptionDict e) = Some refusal ->
             outcome (chat_completions P cfg body)
             = inl (HTTPException 500 ("Error occurred: " ++ exc_str e))))
  /\
  (forall body model input e,
      In (EmbeddingsCreate model input) (trace (embeddings P cfg body)) ->
      embeddings_create P model input = inl e ->
      (error_line_written P cfg e ->
       surfaces_as e (outcome (embeddings P cfg body))
       /\ (exc_status_code e = Some 429%Z ->
           exc_message e = Some "rate limited" ->
           exists detail,
             outcome (embeddings P cfg body) = inl (HTTPException 429 detail)
             /\ contains "rate limited" detail))
      /\ (forall refusal,
             debug cfg = true ->
             print_error P "Error occurred: " (ExceptionDict e) = Some refusal ->
             outcome (embeddings P cfg body)
             = inl (HTTPException 500 ("Error occurred: " ++ exc_str e))))
  /\
  (forall body entries args res e,
      json_loads P body = inr (PDict entries) ->
      truthy (stream_flag entries) = true ->
      In (ChatCreate args) (trace (chat_completions P cfg body)) ->
      chat_completions_create P args = inr res ->
      snd (iterate P res) = Some e ->
      exists frames failure,
        outcome (chat_completions P cfg body)
        = inr (StreamingResponse frames (Some failure) "application/x-ndjson")
        /\ (chunk_lines_written P cfg (fst (iterate P res)) -> failure = e)).
Proof.
  split; [|split].
  - intros body args e Hin Hraise.
    assert (Hout : outcome (chat_completions P cfg body)
                   = outcome (@error_handler P cfg response e)).
    { destruct (chat_completions_call_inv P cfg body args Hin)
        as (entries & msgs & model & temperature & Hreq & ->).
      rewrite (chat_completions_request P cfg _ _ _ _ _ Hreq).
      cbv zeta. unfold outcome at 1; simpl. unfold after_chat_create.
      now rewrite Hraise. }
    rewrite Hout. split.
    + intros Hw. pose proof (error_handler_surfaces P cfg e Hw) as Hs.
      split; [exact Hs | now apply rate_limited_detail].
    + intros refusal Hd Hp. now apply (error_handler_refused P cfg e refusal).
  - intros body model input e Hin Hraise.
    assert (Hout : outcome (embeddings P cfg body)
                   = outcome (@error_handler P cfg response e)).
    { destruct (embeddings_call_inv P cfg body model input Hin)
        as (data & Hload & Hmodel & Hinput).
      rewrite (embeddings_request P cfg _ _ _ _ Hload Hmodel Hinput).
      now rewrite Hraise. }
    rewrite Hout. split.
    + intros Hw. pose proof (error_handler_surfaces P cfg e Hw) as Hs.
      split; [exact Hs | now apply rate_limited_detail].
    + intros refusal Hd Hp. now apply (error_handler_refused P cfg e refusal).
  - intros body entries args res e Hload Hflag Hin Hres He.
    destruct (chat_completions_call_inv P cfg body args Hin)
      as (entries' & msgs & model & temperature & Hreq & ->).
    pose proof Hreq as (Hload' & _).
    rewrite Hload in Hload'. injection Hload' as <-.
    rewrite (chat_completions_request P cfg _ _ _ _ _ Hreq).
    cbv zeta. unfold outcome at 1; simpl. unfold after_chat_create.
    rewrite Hres. simpl. rewrite Hflag. simpl.
    destruct (convert_stream_broken P cfg res e He) as [failure Hf].
    exists (fst (snd (convert_stream P cfg res))), failure.
    rewrite Hf. split; [reflexivity|].
    intros Hw. rewrite (convert_stream_written P cfg res Hw) in Hf. simpl in Hf.
    congruence.
Qed.

(** The rate-limited upstream of the example platform, for both
    endpoints and with the debug flag on. *)
Lemma upstream_failure_translated_witness :
  outcome (chat_completions example_platform verbose (chat_body "limited" EmptyString))
  = inl (HTTPException 429 "Error occurred: rate limited")
  /\ outcome (embeddings example_platform verbose (embeddings_body "limited"))
     = inl (HTTPException 429 "Error occurred: rate limited").
Proof.
  destruct (upstream_failure_translated example_platform verbose)
    as (Hchat & Hemb & _).
  split.
  - destruct (Hchat (chat_body "limited" EmptyString)
                (example_args "limited" NOT_GIVEN NOT_GIVEN false) rate_limited)
      as [Hwritten _].
    + left. reflexivity.
    + reflexivity.
    + destruct Hwritten as [[Hboth _] _].
      * right. reflexivity.
      * apply Hboth; reflexivity.
  - destruct (Hemb (embeddings_body "limited") (PStr "limited") (PStr "hi") rate_limited)
      as [Hwritten _].
    + left. reflexivity.
    + reflexivity.
    + destruct Hwritten as [[Hboth _] _].
      * right. reflexivity.
      * apply Hboth; reflexivity.
Defined.

(** C1 needs the line of the [except] block to be written, and the
    failure to be of the call.  On a standard output in ASCII and with
    the debug flag on, the upstream call raises an exception that has
    the status code 429 and a message, the message is not ASCII, [print]
    raises on the line of the [except] block, and the caller gets status
    500: the attributes of the exception do not surface.  And when the
    upstream fails with status 429 while its stream is iterated, the
    caller gets no HTTP error at all, but a stream that breaks after its
    first frame. *)
Lemma upstream_failure_not_translated :
  (In (ChatCreate (mk_chat_create_args (PStr "accent") [system_message; user_message]
                     NOT_GIVEN NOT_GIVEN NOT_GIVEN (PBool false)))
      (trace (chat_completions ascii_platform verbose (chat_body "accent" EmptyString)))
   /\ chat_completions_create ascii_platform
        (mk_chat_create_args (PStr "accent") [system_message; user_message]
           NOT_GIVEN NOT_GIVEN NOT_GIVEN (PBool false))
      = inl accent_limited
   /\ exc_status_code accent_limited = Some 429%Z
   /\ exc_message accent_limited = Some accent
   /\ outcome (chat_completions ascii_platform verbose (chat_body "accent" EmptyString))
      = inl (HTTPException 500 ("Error occurred: " ++ accent))
   /\ ~ surfaces_as accent_limited
         (outcome (chat_completions ascii_platform verbose
                     (chat_body "accent" EmptyString))))
  /\
  (In (ChatCreate (example_args "gpt-4" NOT_GIVEN NOT_GIVEN true))
      (trace (chat_completions broken_platform quiet (chat_body "gpt-4" stream_true)))
   /\ chat_completions_create broken_platform
        (example_args "gpt-4" NOT_GIVEN NOT_GIVEN true)
      = inr (ChunkStream ["{}"; "[]"])
   /\ iterate broken_platform (ChunkStream ["{}"; "[]"]) = (["{}"], Some rate_limited)
   /\ outcome (chat_completions broken_platform quiet (chat_body "gpt-4" stream_true))
      = inr (StreamingResponse ["data: {}" ++ NL ++ NL] (Some rate_limited)
               "application/x-ndjson")
   /\ ~ surfaces_as rate_limited
         (outcome (chat_completions broken_platform quiet
                     (chat_body "gpt-4" stream_true)))).
Proof.
  split.
  - split; [left; reflexivity|]. repeat (split; [reflexivity|]).
    intros [Hboth _]. specialize (Hboth 429%Z accent eq_refl eq_refl).
    vm_compute in Hboth. discriminate.
  - split; [left; reflexivity|]. repeat (split; [reflexivity|]).
    intros [Hboth _]. specialize (Hboth 429%Z "rate limited" eq_refl eq_refl).
    vm_compute in Hboth. discriminate.
Qed.

(** C2. Whenever the chat endpoint calls the upstream, streaming or not,
    the messages it passes are the system message followed by the
    messages of the request, in their order and as they were; and a
    request that is an object with a list of messages and a model (and a
    temperature that is absent or converts) makes exactly that one call. *)
Theorem chat_messages_forwarded (P : platform) (cfg : config) :
  (forall body args,
      In (ChatCreate args) (trace (chat_completions P cfg body)) ->
      exists entries msgs,
        json_loads P body = inr (PDict entries)
        /\ dict_lookup entries "messages" = Some (PList msgs)
        /\ arg_messages args = system_message :: msgs)
  /\
  (forall body entries msgs model temperature,
      chat_request P body entries msgs model temperature ->
      exists args,
        upstream_calls (trace (chat_completions P cfg body)) = [ChatCreate args]
        /\ arg_messages args = system_message :: msgs)
  /\ system_message = PDict [("content", PStr system); ("role", PStr "system")].
Proof.
  split; [|split; [|reflexivity]].
  - intros body args Hin.
    destruct (chat_completions_call_inv P cfg body args Hin)
      as (entries & msgs & model & temperature & (Hload & _ & Hmsgs & _) & ->).
    now exists entries, msgs.
  - intros body entries msgs model temperature Hreq.
    exists (chat_args entries msgs model temperature). split; [|reflexivity].
    rewrite (chat_completions_request P cfg _ _ _ _ _ Hreq).
    cbv zeta. unfold trace at 1; simpl.
    change (upstream_calls (ChatCreate ?a :: ?t)) with (ChatCreate a :: upstream_calls t).
    now rewrite after_chat_create_calls.
Qed.

(** The one-message request of the example platform. *)
Lemma chat_messages_forwarded_witness :
  exists entries msgs,
    json_loads example_platform (chat_body "gpt-4" EmptyString) = inr (PDict entries)
    /\ dict_lookup entries "messages" = Some (PList msgs)
    /\ [system_message; user_message] = system_message :: msgs.
Proof.
  destruct (chat_messages_forwarded example_platform verbose) as [H _].
  apply (H (chat_body "gpt-4" EmptyString)
           (example_args "gpt-4" NOT_GIVEN NOT_GIVEN false)).
  left. reflexivity.
Defined.






(** C5. Whenever the chat endpoint calls the upstream, the tools it
    passes are the value of [tools] in the body, unchanged, and left out
    when the body has no such key; the tool choice is ['auto'] exactly
    when the body has the key, and is left out exactly when it has not.
    A request that is an object with a list of messages and a model (and
    a temperature that is absent or converts) makes exactly one call,
    with these tools and this tool choice. *)
Theorem chat_tools_forwarded (P : platform) (cfg : config) :
  (forall body args,
      In (ChatCreate args) (trace (chat_completions P cfg body)) ->
      exists entries,
        json_loads P body = inr (PDict entries)
        /\ arg_tools args =
           match dict_lookup entries "tools" with
           | Some tools => Given tools
           | None => NOT_GIVEN
           end
        /\ (arg_tool_choice args = Given "auto"
            <-> has_key (PDict entries) "tools" = true)
        /\ (arg_tool_choice args = NOT_GIVEN
            <-> has_key (PDict entries) "tools" = false))
  /\
  (forall body entries msgs model temperature,
      chat_request P body entries msgs model temperature ->
      exists args,
        upstream_calls (trace (chat_completions P cfg body)) = [ChatCreate args]
        /\ arg_tools args =
           match dict_lookup entries "tools" with
           | Some tools => Given tools
           | None => NOT_GIVEN
           end
        /\ arg_tool_choice args =
           match dict_lookup entries "tools" with
           | Some _ => Given "auto"
           | None => NOT_GIVEN
           end).
Proof.
  split.
  - intros body args Hin.
    destruct (chat_completions_call_inv P cfg body args Hin)
      as (entries & msgs & model & temperature & (Hload & _) & ->).
    exists entries. split; [exact Hload|]. split; [reflexivity|].
    unfold chat_args; simpl.
    destruct (dict_lookup entries "tools"); repeat split; intros; congruence.
  - intros body entries msgs model temperature Hreq.
    exists (chat_args entries msgs model temperature).
    split; [|split; reflexivity].
    rewrite (chat_completions_request P cfg _ _ _ _ _ Hreq).
    cbv zeta. unfold trace at 1; simpl.
    change (upstream_calls (ChatCreate ?a :: ?t)) with (ChatCreate a :: upstream_calls t).
    now rewrite after_chat_create_calls.
Qed.

(** The request with an empty list of tools of the example platform: the
    one call of the handler carries the empty list and ['auto']. *)
Lemma chat_tools_forwarded_witness :
  exists args,
    upstream_calls (trace (chat_completions example_platform quiet
                             (chat_body "gpt-4" tools_empty)))
    = [ChatCreate args]
    /\ arg_tools args = Given (PList [])
    /\ arg_tool_choice args = Given "auto".
Proof.
  destruct (chat_tools_forwarded example_platform quiet) as [_ H].
  apply (H (chat_body "gpt-4" tools_empty)
           [("model", PStr "gpt-4"); ("messages", PList [user_message]);
            ("tools", PList [])]
           [user_message] (PStr "gpt-4") NOT_GIVEN).
  repeat split.
Defined.

(** C8.  When the standard output takes every line it is
    given, the outcome of every request to every endpoint (the response
    with its content or its frames, or the exception raised) and its
    upstream calls are the same whatever the debug flag is; and without
    the flag nothing is printed, whatever the standard output. *)
Theorem debug_flag_only_logs (P : platform) (address : string) (req : request) :
  (takes_every_line P ->
   forall d1 d2,
     outcome (app P (mk_config d1 address) req)
     = outcome (app P (mk_config d2 address) req)
     /\ upstream_calls (trace (app P (mk_config d1 address) req))
        = upstream_calls (trace (app P (mk_config d2 address) req)))
  /\ printed_lines (trace (app P (mk_config false address) req)) = [].
Proof.
  split.
  - intros Htakes d1 d2. now apply same_app.
  - now apply silent_app.
Qed.

(** The streamed request of the example platform, with the flag and
    without it. *)
Lemma debug_flag_only_logs_witness :
  outcome (app example_platform (mk_config true "http://127.0.0.1:8000")
             (mk_request ChatCompletions (chat_body "gpt-4" stream_true)))
  = outcome (app example_platform (mk_config false "http://127.0.0.1:8000")
               (mk_request ChatCompletions (chat_body "gpt-4" stream_true))).
Proof.
  destruct (debug_flag_only_logs example_platform "http://127.0.0.1:8000"
              (mk_request ChatCompletions (chat_body "gpt-4" stream_true)))
    as [H _].
  apply H. intros label what. reflexivity.
Defined.

(** C8 needs a standard output that takes every line.  On a standard
    output in ASCII, the same
    request is answered with status 500 when the debug flag is on and
    with status 429 when it is off. *)
Lemma debug_flag_changes_status :
  outcome (app ascii_platform (mk_config true "http://127.0.0.1:8000")
             (mk_request ChatCompletions (chat_body "accent" EmptyString)))
  = inl (HTTPException 500 ("Error occurred: " ++ accent))
  /\ outcome (app ascii_platform (mk_config false "http://127.0.0.1:8000")
                (mk_request ChatCompletions (chat_body "accent" EmptyString)))
     = inl (HTTPException 429 ("Error occurred: " ++ accent))
  /\ outcome (app ascii_platform (mk_config true "http://127.0.0.1:8000")
                (mk_request ChatCompletions (chat_body "accent" EmptyString)))
     <> outcome (app ascii_platform (mk_config false "http://127.0.0.1:8000")
                   (mk_request ChatCompletions (chat_body "accent" EmptyString))).
Proof.
  split; [reflexivity|]. split; [reflexivity|].
  vm_compute. discriminate.
Qed.

(** C9.  The chat endpoint translates the failures of its
    [try] block only: those of the upstream call and that of the lookup
    of the model.  A body that [json.loads] rejects makes the handler
    raise that very exception; a decoded body without the key [messages]
    makes it raise an exception from before the [try]; neither is an
    [HTTPException], and no upstream call and no line of log comes from
    the handler.  For an object whose temperature is absent or converts,
    the exception is [KeyError('messages')].  Every [HTTPException] of
    the handler comes from one upstream call that raised, or from a body
    without a model, which makes no call. *)
Theorem chat_body_errors_untranslated (P : platform) (cfg : config) :
  (forall body e,
      json_loads P body = inl e ->
      chat_completions P cfg body = ([], inl (Propagated e)))
  /\
  (forall body data,
      json_loads P body = inr data ->
      has_key data "messages" = false ->
      exists e, chat_completions P cfg body = ([], inl (Propagated e)))
  /\
  (forall body entries temperature,
      json_loads P body = inr (PDict entries) ->
      temperature_of P entries = inr temperature ->
      dict_lookup entries "messages" = None ->
      chat_completions P cfg body = ([], inl (Propagated (key_error "messages"))))
  /\
  (forall body status_code detail,
      outcome (chat_completions P cfg body) = inl (HTTPException status_code detail) ->
      (exists args e,
          upstream_calls (trace (chat_completions P cfg body)) = [ChatCreate args]
          /\ chat_completions_create P args = inl e)
      \/ (upstream_calls (trace (chat_completions P cfg body)) = []
          /\ status_code = 500%Z
          /\ detail = "Error occurred: 'model'"
          /\ exists entries,
              json_loads P body = inr (PDict entries)
              /\ dict_lookup entries "model" = None)).
Proof.
  split; [|split; [|split]].
  - apply chat_completions_undecoded.
  - apply chat_completions_no_messages.
  - apply chat_completions_key_error.
  - intros body c d Hout.
    destruct (chat_completions_all_cases P cfg body)
      as [[e He] | [He | (entries & msgs & model & temperature & Hreq)]].
    + rewrite He in Hout. discriminate.
    + right. destruct He as (entries & Hload & Hmodel & He).
      rewrite He in *. unfold outcome at 1 in Hout; simpl in Hout.
      unfold trace at 1; simpl. rewrite error_handler_calls.
      rewrite error_handler_no_status in Hout by reflexivity.
      injection Hout as <- <-. repeat split; trivial.
      now exists entries.
    + left. exists (chat_args entries msgs model temperature).
      assert (Hcalls : upstream_calls (trace (chat_completions P cfg body))
                       = [ChatCreate (chat_args entries msgs model temperature)]).
      { rewrite (chat_completions_request P cfg _ _ _ _ _ Hreq).
        cbv zeta. unfold trace at 1; simpl.
        change (upstream_calls (ChatCreate ?a :: ?t))
          with (ChatCreate a :: upstream_calls t).
        now rewrite after_chat_create_calls. }
      rewrite (chat_completions_request P cfg _ _ _ _ _ Hreq) in Hout.
      cbv zeta in Hout. unfold outcome at 1 in Hout; simpl in Hout.
      unfold after_chat_create in Hout.
      destruct (chat_completions_create P (chat_args entries msgs model temperature))
        as [e|res] eqn:Hcreate.
      * now exists e.
      * destruct (negb (truthy _)); discriminate.
Qed.

(** The body without messages of the example platform, and a body that
    is not JSON. *)
Lemma chat_body_errors_untranslated_witness :
  chat_completions example_platform verbose no_messages_body
  = ([], inl (Propagated (key_error "messages")))
  /\ chat_completions example_platform verbose "not json"
     = ([], inl (Propagated json_decode_error)).
Proof.
  destruct (chat_body_errors_untranslated example_platform verbose)
    as (Hjson & _ & Hkey & _).
  split.
  - apply (Hkey no_messages_body [("model", PStr "gpt-4")] NOT_GIVEN); reflexivity.
  - apply Hjson. reflexivity.
Defined.

(** C9 has to count the lookup of the model among the failures that are
    translated.  A body with messages and without a model
    is answered with the [HTTPException] of the [except] block, and the
    upstream was not called: the policy has been applied to a failure
    that is not of the upstream call. *)
Lemma chat_policy_without_upstream :
  outcome (chat_completions more_platform quiet messages_only_body)
  = inl (HTTPException 500 "Error occurred: 'model'")
  /\ upstream_calls (trace (chat_completions more_platform quiet messages_only_body))
     = [].
Proof.
  split; reflexivity.
Qed.

End AzureProps.

(* ================================================================== *)
(** * More facts about the string methods                             *)
(* ================================================================== *)

Module PyStrMore.

Import PyStr UrlForms.

Lemma append_empty_r (s : string) : s ++ EmptyString = s.
Proof.
  induction s as [|c s IH]; simpl; [reflexivity | now rewrite IH].
Qed.

Lemma mem_app (c : ascii) (a b : string) :
  mem c (a ++ b) = mem c a || mem c b.
Proof.
  induction a as [|d a IH]; simpl; [reflexivity|].
  destruct (Ascii.eqb c d); [reflexivity | exact IH].
Qed.

Lemma mem_false_neq (c d : ascii) (s : string) :
  mem c (String d s) = false -> Ascii.eqb d c = false /\ mem c s = false.
Proof.
  simpl. rewrite Ascii.eqb_sym. destruct (Ascii.eqb d c); [discriminate | now split].
Qed.

Lemma excludes_mem (chars s : string) (c : ascii) :
  excludes chars s = true -> mem c chars = true -> mem c s = false.
Proof.
  unfold excludes. induction s as [|d s IH]; simpl; intros H Hc; [reflexivity|].
  apply andb_true_iff in H as [Hd Hs].
  destruct (Ascii.eqb c d) eqn:E; [|now apply IH].
  apply Ascii.eqb_eq in E. subst d. now rewrite Hc in Hd.
Qed.

Lemma remove_app (c : ascii) (a b : string) :
  remove c (a ++ b) = remove c a ++ remove c b.
Proof.
  induction a as [|d a IH]; simpl; [reflexivity|].
  destruct (Ascii.eqb d c); simpl; now rewrite IH.
Qed.

Lemma remove_free (c : ascii) (s : string) :
  mem c s = false -> remove c s = s.
Proof.
  induction s as [|d s IH]; intros H; [reflexivity|].
  apply mem_false_neq in H as [Hd Hs]. simpl. rewrite Hd. now rewrite IH.
Qed.

Lemma mem_remove (c : ascii) (s : string) : mem c (remove c s) = false.
Proof.
  induction s as [|d s IH]; simpl; [reflexivity|].
  destruct (Ascii.eqb d c) eqn:E; [exact IH|].
  simpl. rewrite Ascii.eqb_sym, E. exact IH.
Qed.

Lemma remove_comm (c d : ascii) (s : string) :
  remove c (remove d s) = remove d (remove c s).
Proof.
  induction s as [|x s IH]; simpl; [reflexivity|].
  destruct (Ascii.eqb x d) eqn:Ed, (Ascii.eqb x c) eqn:Ec; simpl;
    rewrite ?Ed, ?Ec, IH; reflexivity.
Qed.

Lemma remove_idem (c : ascii) (s : string) :
  remove c (remove c s) = remove c s.
Proof.
  apply remove_free, mem_remove.
Qed.

Lemma replace_free (c d : ascii) (s : string) :
  mem c s = false -> replace c d s = s.
Proof.
  induction s as [|x s IH]; intros H; [reflexivity|].
  apply mem_false_neq in H as [Hx Hs]. simpl. rewrite Hx. now rewrite IH.
Qed.

Lemma split_once_app (c : ascii) (a b : string) :
  mem c a = false ->
  split_once c (a ++ b) =
  match split_once c b with
  | Some (x, y) => Some (a ++ x, y)
  | None => None
  end.
Proof.
  induction a as [|d a IH]; intros H; simpl.
  - now destruct (split_once c b) as [[x y]|].
  - apply mem_false_neq in H as [Hd Ha]. rewrite Hd, (IH Ha).
    now destruct (split_once c b) as [[x y]|].
Qed.

Lemma split_once_free (c : ascii) (s : string) :
  mem c s = false -> split_once c s = None.
Proof.
  induction s as [|d s IH]; intros H; [reflexivity|].
  apply mem_false_neq in H as [Hd Hs]. simpl. now rewrite Hd, IH.
Qed.

Lemma split_once_hit (c : ascii) (a b : string) :
  mem c a = false -> split_once c (a ++ String c b) = Some (a, b).
Proof.
  intros H. rewrite (split_once_app _ _ _ H). simpl.
  rewrite Ascii.eqb_refl. now rewrite append_empty_r.
Qed.

Lemma split_free (c : ascii) (s : string) :
  mem c s = false -> split c s = [s].
Proof.
  induction s as [|d s IH]; intros H; [reflexivity|].
  apply mem_false_neq in H as [Hd Hs]. simpl. now rewrite Hd, IH.
Qed.

Lemma split_app_sep (c : ascii) (a b : string) :
  mem c a = false -> split c (a ++ String c b) = a :: split c b.
Proof.
  induction a as [|d a IH]; intros H; simpl.
  - now rewrite Ascii.eqb_refl.
  - apply mem_false_neq in H as [Hd Ha]. now rewrite Hd, (IH Ha).
Qed.

Lemma lstrip_if_head (p : ascii -> bool) (c : ascii) (s : string) :
  p c = false -> lstrip_if p (String c s) = String c s.
Proof.
  intros H. simpl. now rewrite H.
Qed.

Lemma rstrip_if_free (p : ascii -> bool) (s : string) :
  forallb (fun c => negb (p c)) s = true -> rstrip_if p s = s.
Proof.
  induction s as [|c s IH]; simpl; intros H; [reflexivity|].
  apply andb_true_iff in H as [Hc Hs]. rewrite (IH Hs).
  apply negb_true_iff in Hc. rewrite Hc. now rewrite andb_false_r.
Qed.

Lemma lstrip_if_free (p : ascii -> bool) (s : string) :
  forallb (fun c => negb (p c)) s = true -> lstrip_if p s = s.
Proof.
  destruct s as [|c s]; simpl; intros H; [reflexivity|].
  apply andb_true_iff in H as [Hc _]. apply negb_true_iff in Hc. now rewrite Hc.
Qed.

(** Text free of a character is left alone by stripping it. *)
Lemma strip_free (c : ascii) (s : string) :
  mem c s = false -> strip (String c EmptyString) s = s.
Proof.
  intros H.
  assert (F : forallb (fun x => negb (mem x (String c EmptyString))) s = true).
  { induction s as [|d s IH]; [reflexivity|].
    apply mem_false_neq in H as [Hd Hs]. cbn [forallb]. rewrite (IH Hs).
    simpl. now rewrite Hd. }
  unfold strip. now rewrite (lstrip_if_free _ _ F), (rstrip_if_free _ _ F).
Qed.

(** Removing a character that the strip test accepts commutes with
    stripping on the left. *)
Lemma lstrip_if_remove (p : ascii -> bool) (c : ascii) (s : string) :
  p c = true -> lstrip_if p (remove c s) = remove c (lstrip_if p s).
Proof.
  intros Hc. induction s as [|d s IH]; simpl; [reflexivity|].
  destruct (Ascii.eqb d c) eqn:E.
  - apply Ascii.eqb_eq in E. subst d. now rewrite Hc.
  - simpl. destruct (p d); [exact IH|]. simpl. now rewrite E.
Qed.

Lemma break_at_app (p : ascii -> bool) (a : string) (c : ascii) (b : string) :
  forallb (fun x => negb (p x)) a = true -> p c = true ->
  break_at p (a ++ String c b) = (a, String c b).
Proof.
  intros Ha Hc. induction a as [|d a IH]; simpl.
  - now rewrite Hc.
  - simpl in Ha. apply andb_true_iff in Ha as [Hd Ha].
    apply negb_true_iff in Hd. now rewrite Hd, (IH Ha).
Qed.

End PyStrMore.

(* ================================================================== *)
(** * [urlparse] on a URL written from its parts                      *)
(* ================================================================== *)

Module UrlparseFacts.

Import PyStr Urllib YoutubeSpec UrlForms PyStrFacts UrllibFacts PyStrMore.

Lemma alpha_not_c0 (c : ascii) :
  is_ascii_alpha c = true -> is_c0_control_or_space c = false.
Proof.
  unfold is_ascii_alpha, is_upper, is_lower, is_c0_control_or_space.
  intros H. apply Nat.leb_gt.
  apply orb_true_iff in H as [H | H]; apply andb_true_iff in H as [H _];
    apply Nat.leb_le in H; lia.
Qed.

(** A character of [s] is a character of every text that [s] is made
    of. *)
Lemma mem_forallb (p : ascii -> bool) (s : string) (c : ascii) :
  forallb p s = true -> mem c s = true -> p c = true.
Proof.
  induction s as [|d s IH]; simpl; intros H Hc; [discriminate|].
  apply andb_true_iff in H as [Hd Hs].
  destruct (Ascii.eqb c d) eqn:E; [|now apply IH].
  apply Ascii.eqb_eq in E. now subst d.
Qed.

Lemma excludes_app (chars a b : string) :
  excludes chars (a ++ b) = excludes chars a && excludes chars b.
Proof.
  unfold excludes. induction a as [|c a IH]; simpl; [reflexivity|].
  now rewrite IH, andb_assoc.
Qed.

(** Excluding a set of characters excludes every part of the set. *)
Lemma excludes_sub (chars chars' s : string) :
  forallb (fun c => mem c chars) chars' = true ->
  excludes chars s = true -> excludes chars' s = true.
Proof.
  unfold excludes. intros Hsub.
  induction s as [|d s IH]; cbn [forallb]; intros H; [reflexivity|].
  apply andb_true_iff in H as [Hd Hs]. rewrite (IH Hs), andb_true_r.
  destruct (mem d chars') eqn:E; [|reflexivity].
  apply (mem_forallb _ _ _ Hsub) in E. now rewrite E in Hd.
Qed.

(** Text made of the characters of [good] excludes every set that has
    no character of [good]. *)
Lemma made_of_excludes (good bad s : string) :
  forallb (fun c => negb (mem c good)) bad = true ->
  forallb (fun c => mem c good) s = true -> excludes bad s = true.
Proof.
  unfold excludes. intros Hdis.
  induction s as [|d s IH]; cbn [forallb]; intros H; [reflexivity|].
  apply andb_true_iff in H as [Hd Hs]. rewrite (IH Hs), andb_true_r.
  destruct (mem d bad) eqn:E; [|reflexivity].
  apply (mem_forallb _ _ _ Hdis) in E. now rewrite Hd in E.
Qed.

Lemma break_at_free (p : ascii -> bool) (a : string) :
  forallb (fun x => negb (p x)) a = true -> break_at p a = (a, EmptyString).
Proof.
  induction a as [|d a IH]; simpl; intros H; [reflexivity|].
  apply andb_true_iff in H as [Hd Ha]. apply negb_true_iff in Hd.
  now rewrite Hd, (IH Ha).
Qed.

Lemma remove_breaks_free (s : string) :
  excludes line_breaks s = true ->
  remove LF (remove CR (remove TAB s)) = s.
Proof.
  intros H.
  rewrite (remove_free TAB), (remove_free CR), (remove_free LF); trivial;
    apply (excludes_mem line_breaks); trivial.
Qed.

Ltac narrow H := eapply excludes_sub; [|exact H]; reflexivity.

Lemma excludes_mark (chars : string) (mark : ascii) (part : option string) :
  mem mark chars = false ->
  excludes chars (part_text part) = true ->
  excludes chars (with_mark mark part) = true.
Proof.
  intros Hm H. destruct part as [s|]; [|reflexivity].
  unfold excludes in *. cbn [with_mark part_text forallb] in *. now rewrite Hm, H.
Qed.

Lemma lstrip_scheme (sch rest : string) :
  scheme_text sch = true ->
  lstrip_if is_c0_control_or_space (sch ++ rest) = sch ++ rest.
Proof.
  destruct sch as [|c0 sch]; [discriminate|]. unfold scheme_text.
  intros H. apply andb_true_iff in H as [H0 _].
  cbn [append lstrip_if]. now rewrite (alpha_not_c0 _ H0).
Qed.

(** Cutting at the first character that passes [p], when the text
    before passes nowhere and what follows is empty or starts with such
    a character. *)
Lemma break_at_parts (p : ascii -> bool) (a r : string) :
  forallb (fun x => negb (p x)) a = true ->
  match r with
  | EmptyString => true
  | String c _ => p c
  end = true ->
  break_at p (a ++ r) = (a, r).
Proof.
  intros Ha Hr. destruct r as [|c r].
  - rewrite append_empty_r. now apply break_at_free.
  - now apply break_at_app.
Qed.

Lemma startswith_app (p s : string) : startswith p (p ++ s) = true.
Proof.
  unfold startswith. induction p as [|c p IH]; simpl; [now destruct s|].
  destruct (Ascii.ascii_dec c c); [exact IH | congruence].
Qed.

Lemma startswith_head (c d : ascii) (s : string) :
  startswith (String c EmptyString) (String d s) = true -> d = c.
Proof.
  unfold startswith. simpl. destruct (Ascii.ascii_dec c d); [congruence | discriminate].
Qed.

Lemma append_assoc' (a b c : string) : a ++ b ++ c = (a ++ b) ++ c.
Proof.
  induction a as [|x a IH]; simpl; [reflexivity | now rewrite IH].
Qed.

Section Parse.

Variable nfkc_normalize : string -> string.
Variable check_bracketed_host : string -> option py_exception.
Variable utf8_decode_replace : string -> string.

Lemma urlsplit_compose (sch net pth : string) (qry frg : option string) :
  scheme_text sch = true ->
  netloc_text net = true ->
  path_text pth = true ->
  query_text qry = true ->
  fragment_text frg = true ->
  urlsplit nfkc_normalize check_bracketed_host (compose_url sch net pth qry frg)
  = inr (mk_SplitResult (lower sch) net pth (part_text qry) (part_text frg)).
Proof.
  intros Hsch Hnet Hpth Hqry Hfrg.
  assert (Msch : forallb (fun c => mem c scheme_chars) sch = true).
  { destruct sch as [|c0 sch']; [discriminate|]. unfold scheme_text in Hsch.
    now apply andb_true_iff in Hsch as [_ H]. }
  assert (Bsch : excludes line_breaks sch = true)
    by now apply (made_of_excludes scheme_chars).
  assert (Csch : mem ":" sch = false).
  { apply (excludes_mem ":"); [|reflexivity].
    now apply (made_of_excludes scheme_chars). }
  unfold netloc_text in Hnet. apply andb_true_iff in Hnet as [Anet Enet].
  unfold path_text in Hpth. apply andb_true_iff in Hpth as [Spth Epth].
  unfold query_text in Hqry. unfold fragment_text in Hfrg.
  assert (Bnet : excludes line_breaks net = true) by narrow Enet.
  assert (Bpth : excludes line_breaks pth = true) by narrow Epth.
  assert (Bqry : excludes line_breaks (part_text qry) = true) by narrow Hqry.
  set (rest := pth ++ with_mark "?" qry ++ with_mark "#" frg).
  assert (Brest : excludes line_breaks rest = true).
  { unfold rest. rewrite !excludes_app, Bpth.
    rewrite (excludes_mark line_breaks "?" _ eq_refl Bqry),
      (excludes_mark line_breaks "#" _ eq_refl Hfrg).
    reflexivity. }
  assert (Hclean : remove LF (remove CR (remove TAB
                     (lstrip_if is_c0_control_or_space (compose_url sch net pth qry frg))))
                   = sch ++ String ":" ("//" ++ net ++ rest)).
  { unfold compose_url. fold rest. rewrite (lstrip_scheme _ _ Hsch).
    apply remove_breaks_free.
    assert (Hx : excludes line_breaks ("://" ++ (net ++ rest)) = true)
      by (rewrite (excludes_app _ "://"), excludes_app, Bnet, Brest; reflexivity).
    rewrite excludes_app, Bsch. exact Hx. }
  unfold urlsplit. rewrite Hclean.
  unfold split_scheme. rewrite (split_once_hit _ _ _ Csch).
  assert (Hscheme : match String.append sch EmptyString with
                     | String c0 _ => is_ascii_alpha c0 | EmptyString => false end = true).
  { destruct sch; [discriminate|]. unfold scheme_text in Hsch.
    now apply andb_true_iff in Hsch as [H0 _]. }
  destruct sch as [|c0 sch']; [discriminate|].
  unfold scheme_text in Hsch. rewrite Hsch. clear Hscheme.
  rewrite (startswith_app "//").
  change (splitnetloc ("//" ++ net ++ rest) 2)
    with (break_at (fun c => mem c "/?#") (net ++ rest)).
  assert (Fnet : forallb (fun x => negb (mem x "/?#")) net = true) by narrow Enet.
  assert (Hhead : match rest with
                  | EmptyString => true
                  | String c _ => mem c "/?#"
                  end = true).
  { unfold rest. destruct pth as [|p0 pth'].
    - destruct qry as [q|]; [reflexivity|]. destruct frg as [f|]; reflexivity.
    - cbn [is_empty orb] in Spth. apply startswith_head in Spth. now subst p0. }
  rewrite (break_at_parts _ _ _ Fnet Hhead).
  rewrite (excludes_mem _ _ "[" Enet eq_refl), (excludes_mem _ _ "]" Enet eq_refl).
  cbn [andb orb negb bind ret].
  assert (Hpq : mem "#" (pth ++ with_mark "?" qry) = false).
  { apply (excludes_mem "#"); [|reflexivity].
    rewrite excludes_app.
    rewrite (excludes_sub ("?#" ++ line_breaks) "#" pth eq_refl Epth).
    apply (excludes_mark "#" "?" _ eq_refl).
    narrow Hqry. }
  assert (Hp : mem "?" pth = false)
    by (apply (excludes_mem _ _ "?" Epth); reflexivity).
  unfold rest. rewrite append_assoc'.
  destruct frg as [f|]; cbn [with_mark part_text].
  - rewrite (split_once_hit _ _ _ Hpq).
    destruct qry as [q|]; cbn [with_mark part_text].
    + rewrite (split_once_hit _ _ _ Hp).
      unfold checknetloc. rewrite Anet, orb_true_r. reflexivity.
    + rewrite append_empty_r, (split_once_free _ _ Hp).
      unfold checknetloc. rewrite Anet, orb_true_r. reflexivity.
  - rewrite append_empty_r, (split_once_free _ _ Hpq).
    destruct qry as [q|]; cbn [with_mark part_text].
    + rewrite (split_once_hit _ _ _ Hp).
      unfold checknetloc. rewrite Anet, orb_true_r. reflexivity.
    + rewrite append_empty_r, (split_once_free _ _ Hp).
      unfold checknetloc. rewrite Anet, orb_true_r. reflexivity.
Qed.

Lemma urlparse_compose (sch net pth : string) (qry frg : option string) :
  scheme_text sch = true ->
  netloc_text net = true ->
  path_text pth = true ->
  query_text qry = true ->
  fragment_text frg = true ->
  exists path params,
    urlparse nfkc_normalize check_bracketed_host (compose_url sch net pth qry frg)
    = inr (mk_ParseResult (lower sch) net path params (part_text qry) (part_text frg))
    /\ (mem ";" pth = false -> path = pth /\ params = EmptyString).
Proof.
  intros Hsch Hnet Hpth Hqry Hfrg. unfold urlparse.
  rewrite (urlsplit_compose _ _ _ _ _ Hsch Hnet Hpth Hqry Hfrg).
  cbn [bind sr_scheme sr_path sr_netloc sr_query sr_fragment].
  destruct (existsb (String.eqb (lower sch)) uses_params && mem ";" pth) eqn:E.
  - destruct (splitparams pth) as [path params]. exists path, params.
    split; [reflexivity|]. intros H. rewrite H, andb_false_r in E. discriminate.
  - exists pth, EmptyString. now split.
Qed.

Lemma unquote_plain (s : string) :
  mem "%" s = false -> unquote utf8_decode_replace s = s.
Proof.
  intros H. unfold unquote. now rewrite H.
Qed.

(** The first field [v=id] of a query gives [id] as the first value of
    [v]. *)
Lemma parse_qsl_first_field (id more : string) :
  watch_id id = true ->
  more_fields more = true ->
  exists rest,
    values_of "v" (parse_qsl utf8_decode_replace ("v=" ++ id ++ more)) = id :: rest.
Proof.
  intros Hid Hmore.
  unfold watch_id in Hid. apply andb_true_iff in Hid as [Hne Hid].
  unfold more_fields in Hmore. apply andb_true_iff in Hmore as [Hstart _].
  assert (Hamp : mem "&" ("v=" ++ id) = false).
  { change ("v=" ++ id) with (String "v" (String "=" id)). cbn [mem].
    change (Ascii.eqb "&" "v") with false. change (Ascii.eqb "&" "=") with false.
    cbv iota. now apply (excludes_mem _ _ "&" Hid). }
  assert (Hfield : parse_field utf8_decode_replace ("v=" ++ id) = [("v", id)]).
  { unfold parse_field.
    change (is_empty ("v=" ++ id)) with false. cbv iota.
    change (split_once "=" ("v=" ++ id)) with (Some ("v", id)). cbv iota.
    rewrite Hne.
    rewrite (replace_free "+" " " id) by now apply (excludes_mem _ _ "+" Hid).
    rewrite (unquote_plain id) by now apply (excludes_mem _ _ "%" Hid).
    reflexivity. }
  unfold parse_qsl. change (is_empty ("v=" ++ id ++ more)) with false. cbv iota.
  destruct more as [|m more'].
  - rewrite append_empty_r, (split_free _ _ Hamp). cbn [flat_map].
    rewrite Hfield. now eexists.
  - cbn [is_empty orb] in Hstart. apply startswith_head in Hstart. subst m.
    change ("v=" ++ id ++ String "&" more') with (String "v" (String "=" (id ++ String "&" more'))).
    change (String "v" (String "=" (id ++ String "&" more')))
      with (("v=" ++ id) ++ String "&" more').
    rewrite (split_app_sep _ _ _ Hamp). cbn [flat_map]. rewrite Hfield.
    cbn [app values_of String.eqb]. now eexists.
Qed.


Local Abbreviation urlsplit := (Urllib.urlsplit nfkc_normalize check_bracketed_host).

Lemma urlsplit_remove (c : ascii) (url : string) :
  mem c line_breaks = true ->
  urlsplit (remove c url) = urlsplit url.
Proof.
  intros Hc.
  assert (Hc0 : is_c0_control_or_space c = true).
  { unfold line_breaks in Hc. cbn [mem] in Hc.
    destruct (Ascii.eqb c TAB) eqn:E1; [apply Ascii.eqb_eq in E1; now subst c|].
    destruct (Ascii.eqb c CR) eqn:E2; [apply Ascii.eqb_eq in E2; now subst c|].
    destruct (Ascii.eqb c LF) eqn:E3; [apply Ascii.eqb_eq in E3; now subst c|].
    discriminate. }
  assert (Hclean : remove LF (remove CR (remove TAB
                     (lstrip_if is_c0_control_or_space (remove c url))))
                   = remove LF (remove CR (remove TAB
                       (lstrip_if is_c0_control_or_space url)))).
  { rewrite (lstrip_if_remove _ _ _ Hc0).
    generalize (lstrip_if is_c0_control_or_space url) as s. intros s.
    unfold line_breaks in Hc. cbn [mem] in Hc.
    destruct (Ascii.eqb c TAB) eqn:E1.
    { apply Ascii.eqb_eq in E1. subst c. now rewrite remove_idem. }
    destruct (Ascii.eqb c CR) eqn:E2.
    { apply Ascii.eqb_eq in E2. subst c.
      now rewrite (remove_comm TAB CR), remove_idem. }
    destruct (Ascii.eqb c LF) eqn:E3; [|discriminate].
    apply Ascii.eqb_eq in E3. subst c.
    now rewrite (remove_comm TAB LF), (remove_comm CR LF), remove_idem. }
  unfold Urllib.urlsplit. now rewrite Hclean.
Qed.


End Parse.

End UrlparseFacts.

(* ================================================================== *)
(** * Further properties of [get_video_url]                           *)
(* ================================================================== *)

Module YoutubeBehaviour.

Import PyStr Urllib Youtube YoutubeSpec UrlForms.
Import PyStrFacts UrllibFacts PyStrMore UrlparseFacts.

Section Props.

Variable nfkc_normalize : string -> string.
Variable check_bracketed_host : string -> option py_exception.
Variable utf8_decode_replace : string -> string.

Local Abbreviation get_video_url :=
  (Youtube.get_video_url nfkc_normalize check_bracketed_host utf8_decode_replace).
Local Abbreviation urlparse := (Urllib.urlparse nfkc_normalize check_bracketed_host).
Local Abbreviation parse_qsl := (Urllib.parse_qsl utf8_decode_replace).

(** X1. A watch URL gives back the identifier it was written with: for
    any scheme, any path, any fragment and any further query fields,
    when [v=id] is the first field of the query of a URL on
    [www.youtube.com] and [id] is not empty and has none of [#], [&],
    [%], [+], tab, carriage return and line feed, [get_video_url]
    returns [id]. *)
Theorem watch_url_gives_id (env : environ) (sch pth id more : string)
    (frg : option string) :
  scheme_text sch = true ->
  path_text pth = true ->
  watch_id id = true ->
  more_fields more = true ->
  fragment_text frg = true ->
  os_getenv env "VIDEO_URL"
  = Some (compose_url sch "www.youtube.com" pth (Some ("v=" ++ id ++ more)) frg) ->
  get_video_url env = inr id.
Proof.
  intros Hsch Hpth Hid Hmore Hfrg Henv.
  assert (Hqry : query_text (Some ("v=" ++ id ++ more)) = true).
  { unfold query_text. cbn [part_text].
    change ("v=" ++ id ++ more) with ("v=" ++ (id ++ more)).
    rewrite (excludes_app _ "v="), excludes_app.
    unfold watch_id in Hid. apply andb_true_iff in Hid as [_ Hid].
    unfold more_fields in Hmore. apply andb_true_iff in Hmore as [_ Hmore].
    rewrite Hmore, andb_true_r.
    rewrite (excludes_sub ("#&%+" ++ line_breaks) ("#" ++ line_breaks) id eq_refl Hid).
    reflexivity. }
  destruct (urlparse_compose nfkc_normalize check_bracketed_host sch "www.youtube.com" pth _ frg Hsch eq_refl Hpth Hqry Hfrg)
    as (path & params & Hparse & _).
  destruct (parse_qsl_first_field utf8_decode_replace id more Hid Hmore) as [rest Hvalues].
  unfold Youtube.get_video_url. rewrite Henv, Hparse.
  cbn [bind netloc query part_text].
  change (String.eqb "www.youtube.com" "www.youtube.com") with true. cbv iota.
  rewrite parse_qs_get, Hvalues. reflexivity.
Qed.

(** X2. A short link gives back the identifier it was written with: for
    any scheme, any query and any fragment, when [/id] is the path of a
    URL on [youtu.be] and [id] has none of [/], [?], [#], [;], tab,
    carriage return and line feed, [get_video_url] returns [id]. *)
Theorem short_link_gives_id (env : environ) (sch id : string)
    (qry frg : option string) :
  scheme_text sch = true ->
  short_id id = true ->
  query_text qry = true ->
  fragment_text frg = true ->
  os_getenv env "VIDEO_URL"
  = Some (compose_url sch "youtu.be" ("/" ++ id) qry frg) ->
  get_video_url env = inr id.
Proof.
  intros Hsch Hid Hqry Hfrg Henv. unfold short_id in Hid.
  assert (Hpth : path_text ("/" ++ id) = true).
  { unfold path_text. rewrite (startswith_app "/"), orb_true_r.
    rewrite (excludes_app _ "/").
    rewrite (excludes_sub ("/?#;" ++ line_breaks) ("?#" ++ line_breaks) id eq_refl Hid).
    reflexivity. }
  assert (Hsemi : mem ";" ("/" ++ id) = false).
  { rewrite mem_app. now rewrite (excludes_mem _ _ ";" Hid). }
  assert (Hslash : mem "/" id = false) by now apply (excludes_mem _ _ "/" Hid).
  destruct (urlparse_compose nfkc_normalize check_bracketed_host sch "youtu.be" ("/" ++ id) qry frg Hsch eq_refl Hpth Hqry Hfrg)
    as (path & params & Hparse & Hparts).
  destruct (Hparts Hsemi) as [-> ->].
  unfold Youtube.get_video_url. rewrite Henv, Hparse.
  cbn [bind netloc path].
  change (String.eqb "youtu.be" "www.youtube.com") with false.
  change (String.eqb "youtu.be" "youtu.be") with true. cbv iota.
  assert (Hstrip : strip "/" ("/" ++ id) = id).
  { unfold strip. change ("/" ++ id) with (String "/" id). cbn [lstrip_if].
    change (mem "/" "/") with true. cbv iota.
    apply (strip_free "/" id Hslash). }
  rewrite Hstrip, (split_free _ _ Hslash). reflexivity.
Qed.


(** X3. The host is compared as a whole and as written: a URL written
    with any other network location (another case, a port, user
    information, [youtube.com] or [m.youtube.com]) is refused with the
    invalid-URL error, which names the URL. *)
Theorem other_hosts_rejected (env : environ) (sch net pth : string)
    (qry frg : option string) :
  scheme_text sch = true ->
  netloc_text net = true ->
  path_text pth = true ->
  query_text qry = true ->
  fragment_text frg = true ->
  net <> "www.youtube.com" ->
  net <> "youtu.be" ->
  os_getenv env "VIDEO_URL" = Some (compose_url sch net pth qry frg) ->
  get_video_url env = inl (invalid_url_error (compose_url sch net pth qry frg)).
Proof.
  intros Hsch Hnet Hpth Hqry Hfrg H1 H2 Henv.
  destruct (urlparse_compose nfkc_normalize check_bracketed_host
              sch net pth qry frg Hsch Hnet Hpth Hqry Hfrg)
    as (path & params & Hparse & _).
  unfold Youtube.get_video_url. rewrite Henv, Hparse. cbn [bind netloc].
  apply String.eqb_neq in H1, H2. now rewrite H1, H2.
Qed.

(** X4. [get_video_url] returns an identifier only for a URL that is
    set, that parses, and whose network location is [www.youtube.com]
    (the identifier is then the first value of [v]) or [youtu.be] (it is
    then the first segment of the stripped path). *)
Theorem get_video_url_only_known_hosts (env : environ) (video_id : string) :
  get_video_url env = inr video_id ->
  exists video_url parsed,
    os_getenv env "VIDEO_URL" = Some video_url
    /\ urlparse video_url = inr parsed
    /\ ((netloc parsed = "www.youtube.com"
         /\ exists rest, values_of "v" (parse_qsl (query parsed)) = video_id :: rest)
        \/ (netloc parsed = "youtu.be"
            /\ video_id = first_segment (strip "/" (path parsed)))).
Proof.
  unfold Youtube.get_video_url.
  destruct (os_getenv env "VIDEO_URL") as [video_url|]; [|discriminate].
  destruct (urlparse video_url) as [e|parsed] eqn:Hparse; [discriminate|].
  cbn [bind]. intros H. exists video_url, parsed. split; [reflexivity|]. split; [exact Hparse|].
  destruct (String.eqb (netloc parsed) "www.youtube.com") eqn:E1.
  - left. apply String.eqb_eq in E1. split; [exact E1|].
    rewrite parse_qs_get in H.
    destruct (values_of "v" (parse_qsl (query parsed))) as [|v rest]; [discriminate|].
    injection H as <-. now exists rest.
  - destruct (String.eqb (netloc parsed) "youtu.be") eqn:E2; [|discriminate].
    right. apply String.eqb_eq in E2. split; [exact E2|].
    unfold first_segment.
    destruct (split_head "/" (strip "/" (path parsed))) as [rest Hsplit].
    rewrite Hsplit in H. now injection H as <-.
Qed.

(** X5. For a URL on [youtu.be], [get_video_url] always returns, and
    what it returns has no slash and starts the stripped path. *)
Theorem short_link_id_has_no_slash (env : environ) (video_url : string)
    (parsed : ParseResult) :
  os_getenv env "VIDEO_URL" = Some video_url ->
  urlparse video_url = inr parsed ->
  netloc parsed = "youtu.be" ->
  exists video_id,
    get_video_url env = inr video_id
    /\ mem "/" video_id = false
    /\ exists rest, strip "/" (path parsed) = video_id ++ rest.
Proof.
  intros Henv Hparse Hhost.
  exists (first_segment (strip "/" (path parsed))). split; [|split].
  - unfold Youtube.get_video_url. rewrite Henv, Hparse. cbn [bind]. rewrite Hhost.
    change (String.eqb "youtu.be" "www.youtube.com") with false.
    change (String.eqb "youtu.be" "youtu.be") with true. cbv iota.
    unfold first_segment.
    destruct (split_head "/" (strip "/" (path parsed))) as [rest ->]. reflexivity.
  - unfold first_segment.
    pose proof (break_at_fst_none (fun c => Ascii.eqb c "/") (strip "/" (path parsed))) as H.
    set (s := fst (break_at (fun c => Ascii.eqb c "/") (strip "/" (path parsed)))) in *.
    clearbody s. induction s as [|d s IH]; [reflexivity|].
    cbn [forallb] in H. apply andb_true_iff in H as [Hd Hs].
    cbn [mem]. rewrite Ascii.eqb_sym. apply negb_true_iff in Hd. rewrite Hd. now apply IH.
  - eexists. unfold first_segment. apply break_at_append.
Qed.

(** [urlsplit] does not see a tab, a carriage return or a line feed. *)
(** X6. A tab, a carriage return or a line feed anywhere in the URL,
    and a control character or a space in front of it, change nothing
    of what [get_video_url] returns. *)
Theorem get_video_url_ignores_breaks (env env' : environ) (video_url : string) (c : ascii) :
  os_getenv env "VIDEO_URL" = Some video_url ->
  (mem c line_breaks = true /\ os_getenv env' "VIDEO_URL" = Some (remove c video_url))
  \/ (is_c0_control_or_space c = true
      /\ os_getenv env' "VIDEO_URL" = Some (String c video_url)) ->
  returned (get_video_url env') = returned (get_video_url env).
Proof.
  intros Henv Henv'.
  assert (Hparse : exists url', os_getenv env' "VIDEO_URL" = Some url'
                                /\ urlparse url' = urlparse video_url).
  { destruct Henv' as [[Hc H] | [Hc H]]; eexists; (split; [exact H|]).
    - unfold Urllib.urlparse. now rewrite (urlsplit_remove nfkc_normalize check_bracketed_host _ _ Hc).
    - unfold Urllib.urlparse, Urllib.urlsplit. cbn [lstrip_if]. now rewrite Hc. }
  destruct Hparse as (url' & Hget & Hparse).
  unfold Youtube.get_video_url. rewrite Henv, Hget, Hparse.
  destruct (urlparse video_url) as [e|parsed]; [reflexivity|]. cbn [bind].
  destruct (String.eqb (netloc parsed) "www.youtube.com"); [reflexivity|].
  destruct (String.eqb (netloc parsed) "youtu.be"); reflexivity.
Qed.

End Props.

(** The watch URL [https://www.youtube.com/watch?v=abc123&t=10s#top]. *)
Lemma watch_url_gives_id_witness :
  Youtube.get_video_url ascii_nfkc no_bracketed_host ascii_decode
    [("VIDEO_URL",
      compose_url "https" "www.youtube.com" "/watch"
        (Some ("v=" ++ "abc123" ++ "&t=10s")) (Some "top"))]
  = inr "abc123".
Proof.
  apply (watch_url_gives_id ascii_nfkc no_bracketed_host ascii_decode
           _ "https" "/watch" "abc123" "&t=10s" (Some "top")); reflexivity.
Defined.

(** The short link [http://youtu.be/abc123?si=xyz]. *)
Lemma short_link_gives_id_witness :
  Youtube.get_video_url ascii_nfkc no_bracketed_host ascii_decode
    [("VIDEO_URL", compose_url "http" "youtu.be" ("/" ++ "abc123") (Some "si=xyz") None)]
  = inr "abc123".
Proof.
  apply (short_link_gives_id ascii_nfkc no_bracketed_host ascii_decode
           _ "http" "abc123" (Some "si=xyz") None); reflexivity.
Defined.

(** The host [m.youtube.com]. *)
Lemma other_hosts_rejected_witness :
  Youtube.get_video_url ascii_nfkc no_bracketed_host ascii_decode
    [("VIDEO_URL",
      compose_url "https" "m.youtube.com" "/watch" (Some "v=abc123") None)]
  = inl (invalid_url_error
           (compose_url "https" "m.youtube.com" "/watch" (Some "v=abc123") None)).
Proof.
  apply (other_hosts_rejected ascii_nfkc no_bracketed_host ascii_decode
           _ "https" "m.youtube.com" "/watch" (Some "v=abc123") None);
    try reflexivity; discriminate.
Defined.

(** The identifier of [https://youtu.be/abc/def] comes from a known
    host. *)
Lemma get_video_url_only_known_hosts_witness :
  exists video_url parsed,
    os_getenv [("VIDEO_URL", "https://youtu.be/abc/def")] "VIDEO_URL" = Some video_url
    /\ Urllib.urlparse ascii_nfkc no_bracketed_host video_url = inr parsed
    /\ ((netloc parsed = "www.youtube.com"
         /\ exists rest,
             values_of "v" (Urllib.parse_qsl ascii_decode (query parsed)) = "abc" :: rest)
        \/ (netloc parsed = "youtu.be"
            /\ "abc" = first_segment (strip "/" (path parsed)))).
Proof.
  apply (get_video_url_only_known_hosts ascii_nfkc no_bracketed_host ascii_decode).
  reflexivity.
Defined.

(** The path [//abc/def/] of a short link. *)
Lemma short_link_id_has_no_slash_witness :
  exists video_id,
    Youtube.get_video_url ascii_nfkc no_bracketed_host ascii_decode
      [("VIDEO_URL", "https://youtu.be//abc/def/")] = inr video_id
    /\ mem "/" video_id = false
    /\ exists rest, strip "/" "//abc/def/" = video_id ++ rest.
Proof.
  apply (short_link_id_has_no_slash ascii_nfkc no_bracketed_host ascii_decode
           [("VIDEO_URL", "https://youtu.be//abc/def/")] "https://youtu.be//abc/def/"
           (mk_ParseResult "https" "youtu.be" "//abc/def/"
              EmptyString EmptyString EmptyString));
    reflexivity.
Defined.

(** A line feed at the end of the URL. *)
Lemma get_video_url_ignores_breaks_witness :
  returned (Youtube.get_video_url ascii_nfkc no_bracketed_host ascii_decode
              [("VIDEO_URL", "https://youtu.be/abc")])
  = returned (Youtube.get_video_url ascii_nfkc no_bracketed_host ascii_decode
                [("VIDEO_URL", "https://youtu.be/abc" ++ String LF EmptyString)]).
Proof.
  apply (get_video_url_ignores_breaks ascii_nfkc no_bracketed_host ascii_decode
           [("VIDEO_URL", "https://youtu.be/abc" ++ String LF EmptyString)]
           [("VIDEO_URL", "https://youtu.be/abc")]
           ("https://youtu.be/abc" ++ String LF EmptyString) LF).
  - reflexivity.
  - left. split; reflexivity.
Defined.

End YoutubeBehaviour.

(* ================================================================== *)
(** * More properties of the model provider                           *)
(* ================================================================== *)

Module AzureBehaviour.

Import Py PyStr PyVal AzureProvider AzureSpec AzureFacts AzureMore Example MoreExamples.

(** The middleware prints the body, when the debug flag is on, in front
    of what the route does; a [print] that raises there is outside any
    [try]: its exception leaves the application and no route runs. *)
Lemma app_run (P : platform) (cfg : config) (req : request) :
  app P cfg req
  = if debug cfg
    then match print_error P "REQUEST BODY: " (Bytes (req_body req)) with
         | Some e => ([], inl (Propagated e))
         | None =>
             (Print "REQUEST BODY: " (Bytes (req_body req))
                :: trace (call_next P cfg req),
              outcome (call_next P cfg req))
         end
    else call_next P cfg req.
Proof.
  unfold app, log_body. rewrite log_run.
  destruct (call_next P cfg req) as [t r], (debug cfg);
    [destruct (print_error P _ _)|]; reflexivity.
Qed.

Lemma app_calls (P : platform) (cfg : config) (req : request) :
  upstream_calls (trace (app P cfg req)) = []
  \/ upstream_calls (trace (app P cfg req))
     = upstream_calls (trace (call_next P cfg req)).
Proof.
  rewrite app_run. destruct (debug cfg); [|now right].
  destruct (print_error P _ _); [now left | now right].
Qed.

Lemma upstream_calls_chat_request (P : platform) (cfg : config) (body : string)
    (entries : list (string * pyval)) (msgs : list pyval) (model : pyval)
    (temperature : not_given float) :
  chat_request P body entries msgs model temperature ->
  upstream_calls (trace (chat_completions P cfg body))
  = [ChatCreate (chat_args entries msgs model temperature)].
Proof.
  intros Hreq. rewrite (chat_completions_request P cfg _ _ _ _ _ Hreq).
  cbv zeta. unfold trace at 1; simpl.
  change (upstream_calls (ChatCreate ?a :: ?t)) with (ChatCreate a :: upstream_calls t).
  now rewrite after_chat_create_calls.
Qed.

Lemma upstream_calls_embeddings_request (P : platform) (cfg : config) (body : string)
    (data model input : pyval) :
  json_loads P body = inr data ->
  py_getitem data "model" = inr model ->
  py_getitem data "input" = inr input ->
  upstream_calls (trace (embeddings P cfg body)) = [EmbeddingsCreate model input].
Proof.
  intros Hload Hmodel Hinput.
  rewrite (embeddings_request P cfg _ _ _ _ Hload Hmodel Hinput).
  destruct (embeddings_create P model input) as [e|res]; [|reflexivity].
  unfold trace at 1; simpl.
  change (upstream_calls (EmbeddingsCreate ?m ?i :: ?t))
    with (EmbeddingsCreate m i :: upstream_calls t).
  now rewrite error_handler_calls.
Qed.

(** X8. For a body that is an object with a model and an input, the
    embeddings endpoint calls the upstream once, with that model and
    that input as they are, and when the call returns it answers with
    the result as [jsonable_encoder] gives it. *)
Theorem embeddings_forwards_and_returns (P : platform) (cfg : config) :
  forall body entries model input res,
    json_loads P body = inr (PDict entries) ->
    dict_lookup entries "model" = Some model ->
    dict_lookup entries "input" = Some input ->
    embeddings_create P model input = inr res ->
    embeddings P cfg body
    = ([EmbeddingsCreate model input], inr (JSONResponse (jsonable_encoder P res))).
Proof.
  intros body entries model input res Hload Hmodel Hinput Hres.
  rewrite (embeddings_request P cfg body (PDict entries) model input Hload).
  - now rewrite Hres.
  - simpl. now rewrite Hmodel.
  - simpl. now rewrite Hinput.
Qed.

Lemma embeddings_forwards_and_returns_witness :
  embeddings example_platform quiet (embeddings_body "embed")
  = ([EmbeddingsCreate (PStr "embed") (PStr "hi")],
     inr (JSONResponse (PDict [("object", PStr "list")]))).
Proof.
  apply (embeddings_forwards_and_returns example_platform quiet
           (embeddings_body "embed")
           [("model", PStr "embed"); ("input", PStr "hi")]
           (PStr "embed") (PStr "hi")
           (Completion (PDict [("object", PStr "list")]))); reflexivity.
Defined.

(** X9. The embeddings endpoint with a bad body: a body that
    [json.loads] rejects makes it raise that exception as it is; a
    decoded body on which [data["model"]] or [data["input"]] fails (a
    missing key, a body that is not an object) is inside the [try], so
    the caller gets HTTP 500 with the text of that exception, and the
    upstream is not called. *)
Theorem embeddings_bad_body (P : platform) (cfg : config) :
  (forall body e,
      json_loads P body = inl e ->
      embeddings P cfg body = ([], inl (Propagated e)))
  /\
  (forall body data e,
      json_loads P body = inr data ->
      py_getitem data "model" = inl e
      \/ (exists model, py_getitem data "model" = inr model
                        /\ py_getitem data "input" = inl e) ->
      outcome (embeddings P cfg body)
      = inl (HTTPException 500 ("Error occurred: " ++ exc_str e))
      /\ upstream_calls (trace (embeddings P cfg body)) = [])
  /\
  (forall body entries,
      json_loads P body = inr (PDict entries) ->
      dict_lookup entries "model" = None ->
      outcome (embeddings P cfg body)
      = inl (HTTPException 500 "Error occurred: 'model'")).
Proof.
  assert (Hmid : forall body data e,
             json_loads P body = inr data ->
             py_getitem data "model" = inl e
             \/ (exists model, py_getitem data "model" = inr model
                               /\ py_getitem data "input" = inl e) ->
             outcome (embeddings P cfg body)
             = inl (HTTPException 500 ("Error occurred: " ++ exc_str e))
             /\ upstream_calls (trace (embeddings P cfg body)) = []).
  { intros body data e Hload H.
    assert (Hcode : exc_status_code e = None).
    { destruct H as [H | (model & _ & H)]; now apply py_getitem_error in H. }
    rewrite (embeddings_subscript_fails P cfg body data e Hload H).
    split.
    - unfold outcome at 1; simpl. now apply error_handler_no_status.
    - unfold trace at 1; simpl. apply error_handler_calls. }
  split; [|split; [exact Hmid|]].
  - intros body e Hload. unfold embeddings. now rewrite Hload.
  - intros body entries Hload Hmodel.
    apply (Hmid body (PDict entries) (key_error "model") Hload).
    left. simpl. now rewrite Hmodel.
Qed.

Lemma embeddings_bad_body_witness :
  outcome (embeddings more_platform quiet list_body)
  = inl (HTTPException 500
           "Error occurred: list indices must be integers or slices, not str")
  /\ outcome (embeddings example_platform quiet no_messages_body)
     = inl (HTTPException 500 "Error occurred: 'input'").
Proof.
  destruct (embeddings_bad_body more_platform quiet) as (_ & H & _).
  destruct (embeddings_bad_body example_platform quiet) as (_ & H' & _).
  split.
  - apply (H list_body (PList [])
             (builtin_exception TypeError
                "list indices must be integers or slices, not str")).
    + reflexivity.
    + left. reflexivity.
  - apply (H' no_messages_body (PDict [("model", PStr "gpt-4")]) (key_error "input")).
    + reflexivity.
    + right. exists (PStr "gpt-4"). split; reflexivity.
Defined.

(** X10. A chat body with messages but without a model gets HTTP 500
    with the detail [Error occurred: 'model'], and the upstream is not
    called: unlike [messages], [model] is read inside the [try]. *)
Theorem chat_missing_model_is_500 (P : platform) (cfg : config) :
  forall body entries msgs temperature,
    json_loads P body = inr (PDict entries) ->
    temperature_of P entries = inr temperature ->
    dict_lookup entries "messages" = Some (PList msgs) ->
    dict_lookup entries "model" = None ->
    outcome (chat_completions P cfg body)
    = inl (HTTPException 500 "Error occurred: 'model'")
    /\ upstream_calls (trace (chat_completions P cfg body)) = [].
Proof.
  intros body entries msgs temperature Hload Htemp Hmsgs Hmodel.
  rewrite (chat_completions_no_model P cfg body entries msgs temperature
             Hload Htemp Hmsgs Hmodel).
  split.
  - unfold outcome at 1; simpl. now rewrite error_handler_no_status.
  - unfold trace at 1; simpl. apply error_handler_calls.
Qed.

Lemma chat_missing_model_is_500_witness :
  outcome (chat_completions more_platform verbose messages_only_body)
  = inl (HTTPException 500 "Error occurred: 'model'")
  /\ upstream_calls (trace (chat_completions more_platform verbose messages_only_body)) = [].
Proof.
  apply (chat_missing_model_is_500 more_platform verbose messages_only_body
           [("messages", PList [user_message])] [user_message] NOT_GIVEN);
    reflexivity.
Defined.

(** X11. Whenever the chat endpoint calls the upstream, the model it
    passes is the model of the body, the stream argument is the value of
    [stream] as it is ([False] when absent), and the temperature is left
    out when the body has none and is else [float] of its value. *)
Theorem chat_arguments_from_body (P : platform) (cfg : config) :
  forall body args,
    In (ChatCreate args) (trace (chat_completions P cfg body)) ->
    exists entries,
      json_loads P body = inr (PDict entries)
      /\ dict_lookup entries "model" = Some (arg_model args)
      /\ arg_stream args = match dict_lookup entries "stream" with
                           | Some s => s
                           | None => PBool false
                           end
      /\ ((dict_lookup entries "temperature" = None
           /\ arg_temperature args = NOT_GIVEN)
          \/ (exists t f,
                 dict_lookup entries "temperature" = Some t
                 /\ py_float (float_of_str P) t = inr f
                 /\ arg_temperature args = Given f)).
Proof.
  intros body args Hin.
  destruct (chat_completions_call_inv P cfg body args Hin)
    as (entries & msgs & model & temperature & (Hload & Htemp & _ & Hmodel) & ->).
  exists entries. split; [exact Hload|]. split; [exact Hmodel|]. split; [reflexivity|].
  unfold temperature_of in Htemp. cbn [chat_args arg_temperature].
  destruct (dict_lookup entries "temperature") as [t|].
  - right. destruct (py_float (float_of_str P) t) as [e|f] eqn:Hf; [discriminate|].
    injection Htemp as <-. now exists t, f.
  - left. injection Htemp as <-. now split.
Qed.

Lemma chat_arguments_from_body_witness :
  exists entries,
    json_loads more_platform (chat_body "gpt-4" temperature_one) = inr (PDict entries)
    /\ dict_lookup entries "model" = Some (PStr "gpt-4")
    /\ PBool false = match dict_lookup entries "stream" with
                     | Some s => s
                     | None => PBool false
                     end
    /\ ((dict_lookup entries "temperature" = None
         /\ Given PrimFloat.one = NOT_GIVEN)
        \/ (exists t f,
               dict_lookup entries "temperature" = Some t
               /\ py_float (float_of_str more_platform) t = inr f
               /\ Given PrimFloat.one = Given f)).
Proof.
  apply (chat_arguments_from_body more_platform quiet
           (chat_body "gpt-4" temperature_one)
           (mk_chat_create_args (PStr "gpt-4") [system_message; user_message]
              NOT_GIVEN NOT_GIVEN (Given PrimFloat.one) (PBool false))).
  left. reflexivity.
Defined.

(** X12. A temperature that [float] refuses stops the chat handler
    before the [try]: the exception of the conversion leaves the handler
    as it is, whatever the rest of the body, and nothing is sent
    upstream.  A temperature of [null] is such a value: it raises
    [TypeError]. *)
Theorem chat_bad_temperature_untranslated (P : platform) (cfg : config) :
  (forall body entries t e,
      json_loads P body = inr (PDict entries) ->
      dict_lookup entries "temperature" = Some t ->
      py_float (float_of_str P) t = inl e ->
      chat_completions P cfg body = ([], inl (Propagated e)))
  /\
  (forall body entries,
      json_loads P body = inr (PDict entries) ->
      dict_lookup entries "temperature" = Some PNone ->
      exists e, chat_completions P cfg body = ([], inl (Propagated e))
                /\ exc_type e = TypeError).
Proof.
  assert (H : forall body entries t e,
             json_loads P body = inr (PDict entries) ->
             dict_lookup entries "temperature" = Some t ->
             py_float (float_of_str P) t = inl e ->
             chat_completions P cfg body = ([], inl (Propagated e))).
  { intros body entries t e Hload Ht Hf.
    apply (chat_completions_bad_temperature P cfg body entries e Hload).
    unfold temperature_of. now rewrite Ht, Hf. }
  split; [exact H|].
  intros body entries Hload Ht. eexists. split.
  - apply (H body entries PNone _ Hload Ht). reflexivity.
  - reflexivity.
Qed.

Lemma chat_bad_temperature_untranslated_witness :
  exists e,
    chat_completions more_platform verbose (chat_body "gpt-4" temperature_null)
    = ([], inl (Propagated e))
    /\ exc_type e = TypeError.
Proof.
  destruct (chat_bad_temperature_untranslated more_platform verbose) as [_ H].
  apply (H (chat_body "gpt-4" temperature_null)
           [("model", PStr "gpt-4"); ("messages", PList [user_message]);
            ("temperature", PNone)]); reflexivity.
Defined.

(** X13. A chat body that is not an object stops the handler before the
    [try] with the [AttributeError] of the missing method [get]; in an
    object whose temperature is absent or converts, messages that are
    not a list stop it before the [try] with the [AttributeError] of the
    missing method [insert]. *)
Theorem chat_wrong_types_untranslated (P : platform) (cfg : config) :
  (forall body data,
      json_loads P body = inr data ->
      (forall entries, data <> PDict entries) ->
      chat_completions P cfg body
      = ([], inl (Propagated (attribute_error data "get"))))
  /\
  (forall body entries temperature messages,
      json_loads P body = inr (PDict entries) ->
      temperature_of P entries = inr temperature ->
      dict_lookup entries "messages" = Some messages ->
      (forall msgs, messages <> PList msgs) ->
      chat_completions P cfg body
      = ([], inl (Propagated (attribute_error messages "insert")))).
Proof.
  split.
  - apply chat_completions_not_object.
  - apply chat_completions_messages_not_list.
Qed.

Lemma chat_wrong_types_untranslated_witness :
  chat_completions more_platform verbose list_body
  = ([], inl (Propagated (attribute_error (PList []) "get")))
  /\ chat_completions more_platform verbose text_messages_body
     = ([], inl (Propagated (attribute_error (PStr "hi") "insert"))).
Proof.
  destruct (chat_wrong_types_untranslated more_platform verbose) as [H1 H2].
  split.
  - apply H1; [reflexivity | discriminate].
  - apply (H2 text_messages_body [("messages", PStr "hi")] NOT_GIVEN);
      try reflexivity; discriminate.
Defined.

(** X14. No request, to any route, makes more than one upstream call:
    nothing is tried again. *)
Theorem at_most_one_upstream_call (P : platform) (cfg : config) (req : request) :
  (length (upstream_calls (trace (app P cfg req))) <= 1)%nat.
Proof.
  destruct (app_calls P cfg req) as [-> | ->]; [simpl; lia|].
  unfold call_next. destruct (req_route req).
  - simpl. lia.
  - simpl. lia.
  - destruct (chat_completions_all_cases P cfg (req_body req))
      as [[e ->] | [(entries' & _ & _ & ->)
                   | (entries & msgs & model & temperature & Hreq)]].
    + simpl. lia.
    + unfold trace at 1; simpl. rewrite error_handler_calls. simpl. lia.
    + rewrite (upstream_calls_chat_request P cfg _ _ _ _ _ Hreq). simpl. lia.
  - destruct (embeddings_all_cases P cfg (req_body req))
      as [[e ->] | [(e & _ & ->) | (data & model & input & Hload & Hmodel & Hinput)]].
    + simpl. lia.
    + unfold trace at 1; simpl. rewrite error_handler_calls. simpl. lia.
    + rewrite (upstream_calls_embeddings_request P cfg _ _ _ _ Hload Hmodel Hinput).
      simpl. lia.
Qed.

(** X15. The detail of every [HTTPException] of the two endpoints starts
    with [Error occurred: ], and a status other than 500 is always the
    status of an exception that the one upstream call of the request
    raised, with its message in the detail. *)
Theorem http_error_origin (P : platform) (cfg : config) :
  (forall body c d,
      outcome (chat_completions P cfg body) = inl (HTTPException c d) ->
      (exists m, d = "Error occurred: " ++ m)
      /\ (c <> 500%Z ->
          exists args e m,
            upstream_calls (trace (chat_completions P cfg body)) = [ChatCreate args]
            /\ chat_completions_create P args = inl e
            /\ exc_status_code e = Some c
            /\ exc_message e = Some m
            /\ d = "Error occurred: " ++ m))
  /\
  (forall body c d,
      outcome (embeddings P cfg body) = inl (HTTPException c d) ->
      (exists m, d = "Error occurred: " ++ m)
      /\ (c <> 500%Z ->
          exists model input e m,
            upstream_calls (trace (embeddings P cfg body)) = [EmbeddingsCreate model input]
            /\ embeddings_create P model input = inl e
            /\ exc_status_code e = Some c
            /\ exc_message e = Some m
            /\ d = "Error occurred: " ++ m)).
Proof.
  split.
  - intros body c d Hout.
    destruct (chat_completions_all_cases P cfg body)
      as [[e He] | [He | (entries & msgs & model & temperature & Hreq)]].
    + rewrite He in Hout. discriminate.
    + destruct He as (entries & _ & _ & He).
      rewrite He in Hout. unfold outcome at 1 in Hout; simpl in Hout.
      rewrite error_handler_no_status in Hout by reflexivity.
      injection Hout as <- <-. split; [now eexists | congruence].
    + pose proof (upstream_calls_chat_request P cfg _ _ _ _ _ Hreq) as Hcalls.
      rewrite (chat_completions_request P cfg _ _ _ _ _ Hreq) in Hout.
      cbv zeta in Hout. unfold outcome at 1 in Hout; simpl in Hout.
      unfold after_chat_create in Hout.
      destruct (chat_completions_create P (chat_args entries msgs model temperature))
        as [e|res] eqn:Hcreate.
      * destruct (error_handler_http P cfg e c d Hout) as [Hd Hc].
        split; [exact Hd|]. intros Hne. destruct (Hc Hne) as (m & H1 & H2 & H3).
        now exists (chat_args entries msgs model temperature), e, m.
      * destruct (negb (truthy _)); discriminate.
  - intros body c d Hout.
    destruct (embeddings_all_cases P cfg body)
      as [[e He] | [(e & Hcode & He) | (data & model & input & Hload & Hmodel & Hinput)]].
    + rewrite He in Hout. discriminate.
    + rewrite He in Hout. unfold outcome at 1 in Hout; simpl in Hout.
      rewrite (error_handler_no_status P cfg e Hcode) in Hout.
      injection Hout as <- <-. split; [now eexists | congruence].
    + pose proof (upstream_calls_embeddings_request P cfg _ _ _ _ Hload Hmodel Hinput)
        as Hcalls.
      rewrite (embeddings_request P cfg _ _ _ _ Hload Hmodel Hinput) in Hout.
      destruct (embeddings_create P model input) as [e|res] eqn:Hcreate; [|discriminate].
      unfold outcome at 1 in Hout; simpl in Hout.
      destruct (error_handler_http P cfg e c d Hout) as [Hd Hc].
      split; [exact Hd|]. intros Hne. destruct (Hc Hne) as (m & H1 & H2 & H3).
      now exists model, input, e, m.
Qed.

Lemma http_error_origin_witness :
  exists args e m,
    upstream_calls (trace (chat_completions example_platform verbose
                             (chat_body "limited" EmptyString)))
    = [ChatCreate args]
    /\ chat_completions_create example_platform args = inl e
    /\ exc_status_code e = Some 429%Z
    /\ exc_message e = Some m
    /\ "Error occurred: rate limited" = "Error occurred: " ++ m.
Proof.
  destruct (http_error_origin example_platform verbose) as [H _].
  destruct (H (chat_body "limited" EmptyString) 429%Z "Error occurred: rate limited")
    as [_ Hc].
  - reflexivity.
  - apply Hc. discriminate.
Defined.

(** X16. Every response the two endpoints return comes from one upstream
    call that returned.  The embeddings endpoint returns the encoded
    result, and the chat endpoint the encoded completion when the stream
    flag does not count as true.  When it does, the chat endpoint
    returns a stream of the frames of the first chunks of the upstream,
    in their order: of all of them, ending as the iteration of the
    upstream ends, when the line of every chunk is written (the debug
    flag is off, or [print] returns on each). *)
Theorem response_origin (P : platform) (cfg : config) :
  (forall body r,
      outcome (chat_completions P cfg body) = inr r ->
      exists entries args res,
        json_loads P body = inr (PDict entries)
        /\ upstream_calls (trace (chat_completions P cfg body)) = [ChatCreate args]
        /\ chat_completions_create P args = inr res
        /\ (truthy (stream_flag entries) = false ->
            r = JSONResponse (jsonable_encoder P res))
        /\ (truthy (stream_flag entries) = true ->
            (exists k failure,
                r = StreamingResponse
                      (List.map (frame P) (firstn k (fst (iterate P res))))
                      failure "application/x-ndjson")
            /\ (chunk_lines_written P cfg (fst (iterate P res)) ->
                r = StreamingResponse (List.map (frame P) (fst (iterate P res)))
                      (snd (iterate P res)) "application/x-ndjson")))
  /\
  (forall body r,
      outcome (embeddings P cfg body) = inr r ->
      exists model input res,
        upstream_calls (trace (embeddings P cfg body)) = [EmbeddingsCreate model input]
        /\ embeddings_create P model input = inr res
        /\ r = JSONResponse (jsonable_encoder P res)).
Proof.
  split.
  - intros body r Hout.
    destruct (chat_completions_all_cases P cfg body)
      as [[e He] | [(entries' & _ & _ & He)
                   | (entries & msgs & model & temperature & Hreq)]].
    + rewrite He in Hout. discriminate.
    + rewrite He in Hout. unfold outcome at 1 in Hout; simpl in Hout.
      rewrite error_handler_outcome in Hout. discriminate.
    + pose proof (upstream_calls_chat_request P cfg _ _ _ _ _ Hreq) as Hcalls.
      pose proof Hreq as (Hload & _).
      rewrite (chat_completions_request P cfg _ _ _ _ _ Hreq) in Hout.
      cbv zeta in Hout. unfold outcome at 1 in Hout; simpl in Hout.
      unfold after_chat_create in Hout.
      destruct (chat_completions_create P (chat_args entries msgs model temperature))
        as [e|res] eqn:Hcreate.
      * rewrite error_handler_outcome in Hout. discriminate.
      * exists entries, (chat_args entries msgs model temperature), res.
        split; [exact Hload|]. split; [exact Hcalls|]. split; [exact Hcreate|].
        cbn [chat_args arg_stream] in Hout.
        destruct (truthy (stream_flag entries)); simpl in Hout;
          injection Hout as <-.
        -- split; [intros H; discriminate H|]. intros _. split.
           ++ destruct (convert_stream_prefix P cfg res) as [k Hk].
              exists k. eexists. now rewrite Hk.
           ++ intros Hw. now rewrite (convert_stream_written P cfg res Hw).
        -- split; [reflexivity | intros H; discriminate H].
  - intros body r Hout.
    destruct (embeddings_all_cases P cfg body)
      as [[e He] | [(e & Hcode & He) | (data & model & input & Hload & Hmodel & Hinput)]].
    + rewrite He in Hout. discriminate.
    + rewrite He in Hout. unfold outcome at 1 in Hout; simpl in Hout.
      rewrite error_handler_outcome in Hout. discriminate.
    + pose proof (upstream_calls_embeddings_request P cfg _ _ _ _ Hload Hmodel Hinput)
        as Hcalls.
      rewrite (embeddings_request P cfg _ _ _ _ Hload Hmodel Hinput) in Hout.
      destruct (embeddings_create P model input) as [e|res] eqn:Hcreate.
      * unfold outcome at 1 in Hout; simpl in Hout.
        rewrite error_handler_outcome in Hout. discriminate.
      * exists model, input, res. repeat split; trivial.
        unfold outcome in Hout; simpl in Hout. now injection Hout as <-.
Qed.

(** The streamed request of the example platform with the debug flag
    on, and the same on a standard output in ASCII, where the stream is
    one frame long. *)
Lemma response_origin_witness :
  (exists entries args res,
      json_loads example_platform (chat_body "gpt-4" stream_true) = inr (PDict entries)
      /\ upstream_calls (trace (chat_completions example_platform verbose
                                 (chat_body "gpt-4" stream_true)))
         = [ChatCreate args]
      /\ chat_completions_create example_platform args = inr res
      /\ truthy (stream_flag entries) = true
      /\ chunk_lines_written example_platform verbose (fst (iterate example_platform res))
      /\ StreamingResponse ["data: {}" ++ NL ++ NL; "data: []" ++ NL ++ NL] None
           "application/x-ndjson"
         = StreamingResponse
             (List.map (frame example_platform) (fst (iterate example_platform res)))
             (snd (iterate example_platform res)) "application/x-ndjson")
  /\
  (exists entries args res,
      json_loads ascii_platform (chat_body "accent" stream_true) = inr (PDict entries)
      /\ upstream_calls (trace (chat_completions ascii_platform verbose
                                 (chat_body "accent" stream_true)))
         = [ChatCreate args]
      /\ chat_completions_create ascii_platform args = inr res
      /\ truthy (stream_flag entries) = true
      /\ exists k failure,
          StreamingResponse ["data: {}" ++ NL ++ NL] (Some (encode_error "e9" "1"))
            "application/x-ndjson"
          = StreamingResponse
              (List.map (frame ascii_platform)
                 (firstn k (fst (iterate ascii_platform res))))
              failure "application/x-ndjson").
Proof.
  split.
  - destruct (response_origin example_platform verbose) as [H _].
    destruct (H (chat_body "gpt-4" stream_true)
                (StreamingResponse ["data: {}" ++ NL ++ NL; "data: []" ++ NL ++ NL] None
                   "application/x-ndjson") eq_refl)
      as (entries & args & res & Hload & Hcalls & Hres & _ & Hstream).
    assert (Hentries : entries = [("model", PStr "gpt-4");
                                  ("messages", PList [user_message]);
                                  ("stream", PBool true)])
      by (vm_compute in Hload; now injection Hload as <-).
    assert (Hargs : args = example_args "gpt-4" NOT_GIVEN NOT_GIVEN true)
      by (vm_compute in Hcalls; now injection Hcalls as <-).
    subst entries args.
    assert (Hr : res = ChunkStream ["{}"; "[]"])
      by (vm_compute in Hres; now injection Hres as <-).
    subst res.
    exists [("model", PStr "gpt-4"); ("messages", PList [user_message]);
            ("stream", PBool true)],
      (example_args "gpt-4" NOT_GIVEN NOT_GIVEN true), (ChunkStream ["{}"; "[]"]).
    assert (Hw : chunk_lines_written example_platform verbose
                   (fst (iterate example_platform (ChunkStream ["{}"; "[]"]))))
      by (right; intros c _; reflexivity).
    repeat (split; [reflexivity || exact Hw|]).
    exact (proj2 (Hstream eq_refl) Hw).
  - destruct (response_origin ascii_platform verbose) as [H _].
    destruct (H (chat_body "accent" stream_true)
                (StreamingResponse ["data: {}" ++ NL ++ NL]
                   (Some (encode_error "e9" "1")) "application/x-ndjson") eq_refl)
      as (entries & args & res & Hload & Hcalls & Hres & _ & Hstream).
    assert (Hentries : entries = [("model", PStr "accent");
                                  ("messages", PList [user_message]);
                                  ("stream", PBool true)])
      by (vm_compute in Hload; now injection Hload as <-).
    subst entries.
    exists [("model", PStr "accent"); ("messages", PList [user_message]);
            ("stream", PBool true)], args, res.
    repeat (split; [reflexivity || assumption|]).
    exact (proj1 (Hstream eq_refl)).
Defined.

Lemma convert_chunks_lines (P : platform) (cfg : config) (chunks : list (chunk P)) :
  debug cfg = true ->
  exists k,
    fst (convert_chunks P cfg chunks)
    = List.map (fun c => Print "CHUNK: " (Text (model_dump_json P c))) (firstn k chunks)
    /\ fst (snd (convert_chunks P cfg chunks)) = List.map (frame P) (firstn k chunks).
Proof.
  intros Hd. induction chunks as [|c chunks (k & IHt & IHf)]; simpl;
    [now exists 0%nat|].
  rewrite log_run, Hd.
  destruct (print_error P "CHUNK: " (Text (model_dump_json P c)));
    [now exists 0%nat|].
  destruct (convert_chunks P cfg chunks) as [t' [frames stopped]]; simpl in *.
  exists (S k). simpl. now rewrite IHt, IHf.
Qed.

Lemma convert_stream_lines (P : platform) (cfg : config) (stream : pyobj P) :
  debug cfg = true ->
  exists k,
    fst (convert_stream P cfg stream)
    = List.map (fun c => Print "CHUNK: " (Text (model_dump_json P c)))
        (firstn k (fst (iterate P stream)))
    /\ fst (snd (convert_stream P cfg stream))
       = List.map (frame P) (firstn k (fst (iterate P stream))).
Proof.
  intros Hd. unfold convert_stream.
  destruct (convert_chunks_lines P cfg (fst (iterate P stream)) Hd) as (k & Ht & Hf).
  destruct (iterate P stream) as [chunks failure]; simpl in *.
  destruct (convert_chunks P cfg chunks) as [t [frames stopped]]; simpl in *.
  now exists k.
Qed.

Lemma convert_chunks_debug (P : platform) (cfg : config) (chunks : list (chunk P)) :
  takes_every_line P ->
  debug cfg = true ->
  fst (convert_chunks P cfg chunks)
  = List.map (fun c => Print "CHUNK: " (Text (model_dump_json P c))) chunks.
Proof.
  intros Htakes Hd. induction chunks as [|c chunks IH]; simpl; [reflexivity|].
  rewrite log_run, Hd, Htakes.
  destruct (convert_chunks P cfg chunks) as [t [frames stopped]]; simpl in *.
  now rewrite IH.
Qed.

Lemma convert_stream_debug (P : platform) (cfg : config) (stream : pyobj P) :
  takes_every_line P ->
  debug cfg = true ->
  fst (convert_stream P cfg stream)
  = List.map (fun c => Print "CHUNK: " (Text (model_dump_json P c)))
      (fst (iterate P stream)).
Proof.
  intros Htakes Hd. unfold convert_stream.
  pose proof (convert_chunks_debug P cfg (fst (iterate P stream)) Htakes Hd) as H.
  destruct (iterate P stream) as [chunks failure]; simpl in *.
  destruct (convert_chunks P cfg chunks) as [t [frames stopped]]; simpl in *. exact H.
Qed.

(** X17. With the debug flag, a chat request that gets as far as the
    upstream and streams prints one line with the JSON of a chunk for
    each frame it sends, in order, and no other: a [print] that raises
    ends the lines and the frames at the same chunk.  When the standard
    output takes every line, the request prints its body before the
    call; after the call it prints the attributes of the exception when
    the call raises, one line for each chunk of the upstream when it
    streams, and nothing when it returns a completion. *)
Theorem debug_trace_of_chat (P : platform) (cfg : config) :
  (forall res,
      debug cfg = true ->
      exists k,
        fst (convert_stream P cfg res)
        = List.map (fun c => Print "CHUNK: " (Text (model_dump_json P c)))
            (firstn k (fst (iterate P res)))
        /\ fst (snd (convert_stream P cfg res))
           = List.map (frame P) (firstn k (fst (iterate P res))))
  /\
  (forall body entries msgs model temperature,
      takes_every_line P ->
      debug cfg = true ->
      chat_request P body entries msgs model temperature ->
      let args := chat_args entries msgs model temperature in
      let request_line := Print "REQUEST BODY: " (Bytes body) in
      trace (app P cfg (mk_request ChatCompletions body))
      = match chat_completions_create P args with
        | inl e =>
            [request_line; ChatCreate args; Print "Error occurred: " (ExceptionDict e)]
        | inr res =>
            if truthy (stream_flag entries)
            then request_line :: ChatCreate args
                   :: List.map (fun c => Print "CHUNK: " (Text (model_dump_json P c)))
                        (fst (iterate P res))
            else [request_line; ChatCreate args]
        end).
Proof.
  split.
  - intros res Hd. exact (convert_stream_lines P cfg res Hd).
  - intros body entries msgs model temperature Htakes Hd Hreq args request_line.
    rewrite app_run, Hd, Htakes. cbn [req_body]. unfold trace at 1; simpl.
    unfold call_next. cbn [req_route req_body].
    rewrite (chat_completions_request P cfg _ _ _ _ _ Hreq).
    cbv zeta. unfold trace at 1; simpl. fold args. unfold after_chat_create.
    destruct (chat_completions_create P args) as [e|res].
    + unfold error_handler. rewrite log_run, Hd, Htakes.
      unfold getattr_status_code, getattr_message.
      now destruct (exc_status_code e), (exc_message e).
    + subst args. cbn [chat_args arg_stream].
      destruct (truthy (stream_flag entries)); simpl; [|reflexivity].
      unfold trace; simpl. now rewrite (convert_stream_debug P cfg res Htakes Hd).
Qed.

(** The streamed request of the example platform, and what a stream
    prints on a standard output in ASCII. *)
Lemma debug_trace_of_chat_witness :
  trace (app example_platform verbose
           (mk_request ChatCompletions (chat_body "gpt-4" stream_true)))
  = [ Print "REQUEST BODY: " (Bytes (chat_body "gpt-4" stream_true));
      ChatCreate (example_args "gpt-4" NOT_GIVEN NOT_GIVEN true);
      Print "CHUNK: " (Text "{}"); Print "CHUNK: " (Text "[]") ]
  /\ exists k,
      [Print "CHUNK: " (Text "{}")]
      = List.map (fun c => Print "CHUNK: " (Text (model_dump_json ascii_platform c)))
          (firstn k ["{}"; accent_chunk; "[]"])
      /\ ["data: {}" ++ NL ++ NL]
         = List.map (frame ascii_platform) (firstn k ["{}"; accent_chunk; "[]"]).
Proof.
  split.
  - destruct (debug_trace_of_chat example_platform verbose) as [_ H].
    apply (H (chat_body "gpt-4" stream_true)
             [("model", PStr "gpt-4"); ("messages", PList [user_message]);
              ("stream", PBool true)]
             [user_message] (PStr "gpt-4") NOT_GIVEN).
    + intros label what. reflexivity.
    + reflexivity.
    + repeat split.
  - destruct (debug_trace_of_chat ascii_platform verbose) as [H _].
    apply (H (ChunkStream ["{}"; accent_chunk; "[]"])). reflexivity.
Defined.

(** X18. The debug flag is set exactly when [GPTSCRIPT_DEBUG] is the
    text [true]; with the variable unset or set to anything else, no
    request prints anything. *)
Theorem debug_needs_exact_true (P : platform) (env : environ) :
  (debug (load_config env) = true <-> os_getenv env "GPTSCRIPT_DEBUG" = Some "true")
  /\ (os_getenv env "GPTSCRIPT_DEBUG" <> Some "true" ->
      forall req, printed_lines (trace (app P (load_config env) req)) = []).
Proof.
  assert (H : debug (load_config env) = true
              <-> os_getenv env "GPTSCRIPT_DEBUG" = Some "true").
  { unfold load_config, os_environ_get. cbn [debug].
    destruct (os_getenv env "GPTSCRIPT_DEBUG") as [v|].
    - rewrite String.eqb_eq. split; congruence.
    - split; discriminate. }
  split; [exact H|].
  intros Hne req. apply silent_app.
  apply not_true_is_false. intros E. apply Hne. now apply H.
Qed.

Lemma debug_needs_exact_true_witness :
  printed_lines (trace (app example_platform
                          (load_config [("GPTSCRIPT_DEBUG", "True")])
                          (mk_request ChatCompletions (chat_body "gpt-4" stream_true))))
  = [].
Proof.
  destruct (debug_needs_exact_true example_platform [("GPTSCRIPT_DEBUG", "True")])
    as [_ H].
  apply H. discriminate.
Defined.

End AzureBehaviour.
